(** * The detection agent: detectors, the detector coordinator and the agent

    A shallow embedding of [detection_agent/detector.py],
    [detection_agent/agent.py] and the part of [detection_agent/config.py]
    the agent reads, with the properties of the detection cycle proved
    over it.

    Conventions.
    - Python floats that hold times ([time.time()], [os.path.getmtime]) are
      integers of one fixed unit.
    - A Python [dict] whose iteration order is observable (the coordinator's
      [detectors], an event) is an association list in insertion order; the
      file cache, only ever looked up and assigned, is a [gmap].
    - A method [C.m(self, ...)] is a function [C_m] taking [self] and the
      world and returning the outcome, the new [self] and the new world.
    - Code that can raise returns a [result]; the state a raising call
      leaves behind is kept, as in Python.
    - One call sees one state of the file system; between two calls the
      file system may be any other.

    Left out: the body of the background thread ([_run_loop]), which runs
    beside the caller; the loading of a configuration file; [get_status];
    exits and interrupts, which are no instances of [Exception]. *)

From stdpp Require Import base decidable option list gmap strings pretty.
From Stdlib Require Import ZArith Ascii.

Local Open Scope string_scope.
Local Open Scope list_scope.

(** ** Python values and exceptions *)

(** What [except Exception as e] binds: an instance of [Exception] or of a
    subclass, with the text [str(e)] gives. *)
Record PyException := mkException {
  exc_class : string;
  exc_str : string
}.

Inductive result (A : Type) : Type :=
| Ok (a : A)
| Raise (e : PyException).
Arguments Ok {A} a.
Arguments Raise {A} e.

Definition is_ok {A} (r : result A) : bool :=
  match r with Ok _ => true | Raise _ => false end.

(** The values that occur in a detection event. *)
Inductive PyValue :=
| PStr (s : string)
| PFloat (t : Z).

#[global] Instance PyValue_eq_dec : EqDecision PyValue.
Proof. solve_decision. Defined.

(** A detection event is a [dict] from field names to values. *)
Definition DetectionEvent := list (string * PyValue).

Fixpoint dict_get {V} (d : list (string * V)) (key : string) : option V :=
  match d with
  | [] => None
  | (k, v) :: d' => if decide (k = key) then Some v else dict_get d' key
  end.

(** [d[key] = v]: an existing key keeps its place, a new key goes last. *)
Fixpoint dict_set {V} (d : list (string * V)) (key : string) (v : V)
  : list (string * V) :=
  match d with
  | [] => [(key, v)]
  | (k, v0) :: d' =>
      if decide (k = key) then (k, v) :: d' else (k, v0) :: dict_set d' key v
  end.

Fixpoint dict_del {V} (d : list (string * V)) (key : string)
  : list (string * V) :=
  match d with
  | [] => []
  | (k, v0) :: d' =>
      if decide (k = key) then d' else (k, v0) :: dict_del d' key
  end.

Definition dict_keys {V} (d : list (string * V)) : list string := d.*1.
Definition dict_values {V} (d : list (string * V)) : list V := d.*2.

Definition event_type (ev : DetectionEvent) : option PyValue :=
  dict_get ev "type".

(** ** A state-and-error monad for loop bodies *)

Section StateError.
Context {S : Type}.

Definition M (A : Type) : Type := S -> result A * S.

Definition ret {A} (a : A) : M A := fun s => (Ok a, s).

Definition bind {A B} (m : M A) (k : A -> M B) : M B :=
  fun s =>
    match m s with
    | (Ok a, s') => k a s'
    | (Raise e, s') => (Raise e, s')
    end.

(** A pure computation that may raise. *)
Definition lift {A} (r : result A) : M A := fun s => (r, s).

Definition modify (f : S -> S) : M unit := fun s => (Ok tt, f s).

(** [for x in l: body x]. *)
Fixpoint for_each {B} (l : list B) (body : B -> M unit) : M unit :=
  match l with
  | [] => ret tt
  | x :: l' => bind (body x) (fun _ => for_each l' body)
  end.
End StateError.
Arguments M : clear implicits.

Notation "x <~ c ;; k" := (bind c (fun x => k))
  (at level 100, c at next level, right associativity).
Notation "c ;;; k" := (bind c (fun _ => k))
  (at level 100, right associativity).

(** ** The world a detector observes *)

Inductive FileKind := RegularFile | Directory | OtherKind.

#[global] Instance FileKind_eq_dec : EqDecision FileKind.
Proof. solve_decision. Defined.

(** What [os.stat] returns, as far as the detectors look at it. *)
Record StatResult := mkStat {
  st_kind : FileKind;
  st_mtime : Z
}.

(** One state of the file system: [os_stat p] is [None] where [os.stat(p)]
    raises [OSError]; [os_walk p] is the list of [(root, dirs, files)]
    triples [os.walk(p)] yields. *)
Record FileSystem := mkFS {
  os_stat : string -> option StatResult;
  os_walk : string -> list (string * list string * list string)
}.

Definition os_path_exists (fs : FileSystem) (path : string) : bool :=
  match os_stat fs path with Some _ => true | None => false end.

Definition os_path_isfile (fs : FileSystem) (path : string) : bool :=
  match os_stat fs path with
  | Some s => bool_decide (st_kind s = RegularFile)
  | None => false
  end.

Definition os_path_isdir (fs : FileSystem) (path : string) : bool :=
  match os_stat fs path with
  | Some s => bool_decide (st_kind s = Directory)
  | None => false
  end.

Definition os_path_getmtime (fs : FileSystem) (path : string) : result Z :=
  match os_stat fs path with
  | Some s => Ok (st_mtime s)
  | None => Raise (mkException "FileNotFoundError" path)
  end.

Definition ends_with_sep (s : string) : bool :=
  match String.rev s with
  | String c _ => bool_decide (c = "/"%char)
  | EmptyString => false
  end.

(** [os.path.join(a, b)] of [posixpath]. *)
Definition os_path_join (a b : string) : string :=
  if String.prefix "/" b then b
  else if bool_decide (a = "") || ends_with_sep a then a +:+ b
  else a +:+ "/" +:+ b.

(** The world: a file system state and a clock; [reads] counts the calls of
    [time.time()] made so far, and the next call returns [clock reads]. *)
Record World := mkWorld {
  fs : FileSystem;
  clock : nat -> Z;
  reads : nat
}.

Definition time_time (w : World) : Z * World :=
  (clock w (reads w),
   {| fs := fs w; clock := clock w; reads := Datatypes.S (reads w) |}).

(** ** BaseDetector *)

Record BaseDetector := mkBase {
  name : string;
  enabled : bool;
  last_detection_time : option Z
}.

Definition BaseDetector_init (name : string) : BaseDetector :=
  {| name := name; enabled := true; last_detection_time := None |}.

Definition BaseDetector_is_enabled (self : BaseDetector) : bool :=
  enabled self.

Definition BaseDetector_enable (self : BaseDetector) : BaseDetector :=
  {| name := name self; enabled := true;
     last_detection_time := last_detection_time self |}.

Definition BaseDetector_disable (self : BaseDetector) : BaseDetector :=
  {| name := name self; enabled := false;
     last_detection_time := last_detection_time self |}.

Definition set_last_detection_time (self : BaseDetector) (t : Z)
  : BaseDetector :=
  {| name := name self; enabled := enabled self;
     last_detection_time := Some t |}.

(** ** FileDetector *)

Record FileDetector := mkFileDetector {
  f_base : BaseDetector;
  watch_paths : list string;
  _file_cache : gmap string Z
}.

(** The body of the two loops of [_initialize_cache]:
    [self._file_cache[p] = os.path.getmtime(p)]. *)
Definition cache_mtime (fs : FileSystem) (p : string)
  : M (gmap string Z) unit :=
  mtime <~ lift (os_path_getmtime fs p) ;;
  modify (fun cache => <[p := mtime]> cache).

Definition FileDetector_initialize_cache (fs : FileSystem)
    (watch_paths : list string) : M (gmap string Z) unit :=
  for_each watch_paths (fun path =>
    if os_path_exists fs path then
      if os_path_isfile fs path then cache_mtime fs path
      else if os_path_isdir fs path then
        for_each (os_walk fs path) (fun '(root, dirs, files) =>
          for_each files (fun file =>
            let file_path := os_path_join root file in
            cache_mtime fs file_path))
      else ret tt
    else ret tt).

(** [FileDetector(watch_paths)]; [None] is the default argument, and
    [watch_paths or ["."]] also replaces an empty list. *)
Definition FileDetector_init (watch_paths : option (list string))
    (fs : FileSystem) : result FileDetector :=
  let paths :=
    match watch_paths with
    | None | Some [] => ["."]
    | Some l => l
    end in
  match FileDetector_initialize_cache fs paths ∅ with
  | (Ok _, cache) =>
      Ok {| f_base := BaseDetector_init "file_detector";
            watch_paths := paths;
            _file_cache := cache |}
  | (Raise e, _) => Raise e
  end.

(** The [file_change] event. *)
Definition file_change_event (path : string) (timestamp : Z)
    (action : string) : DetectionEvent :=
  [("type", PStr "file_change"); ("path", PStr path);
   ("timestamp", PFloat timestamp); ("action", PStr action)].

(** The local state of the loops of [detect]: the cache and the list
    [detections] built so far. *)
Record ScanState := mkScan {
  cache : gmap string Z;
  detections : list DetectionEvent
}.

(** [path not in cache or cache[path] != current_mtime]. *)
Definition file_changed (c : gmap string Z) (path : string)
    (current_mtime : Z) : bool :=
  match c !! path with
  | None => true
  | Some cached => negb (cached =? current_mtime)%Z
  end.

(** The comparison both branches of [detect] make for one file. *)
Definition report_file (current_time : Z) (path : string)
    (current_mtime : Z) (st : ScanState) : ScanState :=
  if file_changed (cache st) path current_mtime then
    {| cache := <[path := current_mtime]> (cache st);
       detections := detections st ++
         [file_change_event path current_time
            (if bool_decide (is_Some (cache st !! path))
             then "modified" else "created")] |}
  else st.

Definition check_file (fs : FileSystem) (current_time : Z) (path : string)
  : M ScanState unit :=
  current_mtime <~ lift (os_path_getmtime fs path) ;;
  modify (report_file current_time path current_mtime).

Definition FileDetector_detect_loop (fs : FileSystem) (current_time : Z)
    (watch_paths : list string) : M ScanState unit :=
  for_each watch_paths (fun path =>
    if negb (os_path_exists fs path) then ret tt
    else if os_path_isfile fs path then check_file fs current_time path
    else if os_path_isdir fs path then
      for_each (os_walk fs path) (fun '(root, dirs, files) =>
        for_each files (fun file =>
          let file_path := os_path_join root file in
          if os_path_exists fs file_path then
            check_file fs current_time file_path
          else ret tt))
    else ret tt).

Definition FileDetector_detect (self : FileDetector) (w : World)
  : result (list DetectionEvent) * FileDetector * World :=
  if negb (enabled (f_base self)) then (Ok [], self, w)
  else
    let '(current_time, w') := time_time w in
    match FileDetector_detect_loop (fs w) current_time (watch_paths self)
            {| cache := _file_cache self; detections := [] |} with
    | (Ok _, st) =>
        (Ok (detections st),
         {| f_base := set_last_detection_time (f_base self) current_time;
            watch_paths := watch_paths self;
            _file_cache := cache st |},
         w')
    | (Raise e, st) =>
        (Raise e,
         {| f_base := f_base self;
            watch_paths := watch_paths self;
            _file_cache := cache st |},
         w')
    end.

(** ** ProcessDetector *)

Record ProcessDetector := mkProcessDetector {
  p_base : BaseDetector;
  _process_cache : gset string
}.

Definition ProcessDetector_init : ProcessDetector :=
  {| p_base := BaseDetector_init "process_detector"; _process_cache := ∅ |}.

Definition process_check_event (timestamp : Z) : DetectionEvent :=
  [("type", PStr "process_check"); ("timestamp", PFloat timestamp);
   ("message", PStr "Process monitoring active")].

Definition ProcessDetector_detect (self : ProcessDetector) (w : World)
  : result (list DetectionEvent) * ProcessDetector * World :=
  if negb (enabled (p_base self)) then (Ok [], self, w)
  else
    let '(current_time, w') := time_time w in
    let detections := [] ++ [process_check_event current_time] in
    (Ok detections,
     {| p_base := set_last_detection_time (p_base self) current_time;
        _process_cache := _process_cache self |},
     w').

(** ** Detectors written by the host program *)

(** Any other subclass of [BaseDetector]: its [detect] is an arbitrary
    function of the object's own attributes (the base fields and a private
    state) and of the world; it may return events, raise, and change both. *)
Record CustomDetector := mkCustomDetector {
  c_base : BaseDetector;
  c_state : nat;
  c_detect : BaseDetector -> nat -> World ->
             result (list DetectionEvent) * (BaseDetector * nat) * World
}.

Definition CustomDetector_detect (self : CustomDetector) (w : World)
  : result (list DetectionEvent) * CustomDetector * World :=
  let '(r, (b, s), w') := c_detect self (c_base self) (c_state self) w in
  (r, {| c_base := b; c_state := s; c_detect := c_detect self |}, w').

Inductive AnyDetector :=
| AFile (d : FileDetector)
| AProcess (d : ProcessDetector)
| ACustom (d : CustomDetector).

Definition base (d : AnyDetector) : BaseDetector :=
  match d with
  | AFile d => f_base d
  | AProcess d => p_base d
  | ACustom d => c_base d
  end.

Definition is_enabled (d : AnyDetector) : bool :=
  BaseDetector_is_enabled (base d).

Definition with_base (d : AnyDetector) (b : BaseDetector) : AnyDetector :=
  match d with
  | AFile d =>
      AFile {| f_base := b; watch_paths := watch_paths d;
               _file_cache := _file_cache d |}
  | AProcess d =>
      AProcess {| p_base := b; _process_cache := _process_cache d |}
  | ACustom d =>
      ACustom {| c_base := b; c_state := c_state d; c_detect := c_detect d |}
  end.

Definition enable (d : AnyDetector) : AnyDetector :=
  with_base d (BaseDetector_enable (base d)).

Definition disable (d : AnyDetector) : AnyDetector :=
  with_base d (BaseDetector_disable (base d)).

(** [detector.detect()], dispatched on the class. *)
Definition detect (d : AnyDetector) (w : World)
  : result (list DetectionEvent) * AnyDetector * World :=
  match d with
  | AFile d => let '(r, d', w') := FileDetector_detect d w in (r, AFile d', w')
  | AProcess d =>
      let '(r, d', w') := ProcessDetector_detect d w in (r, AProcess d', w')
  | ACustom d =>
      let '(r, d', w') := CustomDetector_detect d w in (r, ACustom d', w')
  end.

(** ** Detector, the coordinator *)

Record Detector := mkDetector {
  detectors : list (string * AnyDetector);
  results : list DetectionEvent
}.

Definition Detector_init : Detector := {| detectors := []; results := [] |}.

Definition Detector_add_detector (self : Detector) (detector : AnyDetector)
  : Detector :=
  {| detectors := dict_set (detectors self) (name (base detector)) detector;
     results := results self |}.

Definition Detector_remove_detector (self : Detector) (name : string)
  : bool * Detector :=
  match dict_get (detectors self) name with
  | Some _ =>
      (true, {| detectors := dict_del (detectors self) name;
                results := results self |})
  | None => (false, self)
  end.

Definition Detector_get_detector (self : Detector) (name : string)
  : option AnyDetector :=
  dict_get (detectors self) name.

Definition detection_error_event (detector error : string) (timestamp : Z)
  : DetectionEvent :=
  [("type", PStr "detection_error"); ("detector", PStr detector);
   ("error", PStr error); ("timestamp", PFloat timestamp)].

(** The body of the loop of [run_all_detections] for one detector: the
    [try] around [detect()] and its [except Exception] handler. *)
Definition run_detector (detector : AnyDetector)
    (all_results : list DetectionEvent) (w : World)
  : result (list DetectionEvent) * AnyDetector * World :=
  if is_enabled detector then
    match detect detector w with
    | (Ok results, detector', w') =>
        (Ok (all_results ++ results), detector', w')
    | (Raise e, detector', w') =>
        let '(timestamp, w'') := time_time w' in
        (Ok (all_results ++
               [detection_error_event (name (base detector')) (exc_str e)
                  timestamp]),
         detector', w'')
    end
  else (Ok all_results, detector, w).

(** [for detector in self.detectors.values(): ...]; the detectors are
    objects, so what [detect()] changes in one stays in the dict. *)
Fixpoint run_detectors (ds : list (string * AnyDetector))
    (all_results : list DetectionEvent) (w : World)
  : result (list DetectionEvent) * list (string * AnyDetector) * World :=
  match ds with
  | [] => (Ok all_results, [], w)
  | (key, detector) :: rest =>
      match run_detector detector all_results w with
      | (Ok all_results', detector', w') =>
          let '(r, rest', w'') := run_detectors rest all_results' w' in
          (r, (key, detector') :: rest', w'')
      | (Raise e, detector', w') => (Raise e, (key, detector') :: rest, w')
      end
  end.

Definition Detector_run_all_detections (self : Detector) (w : World)
  : result (list DetectionEvent) * Detector * World :=
  match run_detectors (detectors self) [] w with
  | (Ok all_results, ds, w') =>
      (Ok all_results,
       {| detectors := ds; results := results self ++ all_results |}, w')
  | (Raise e, ds, w') =>
      (Raise e, {| detectors := ds; results := results self |}, w')
  end.

Definition Detector_get_detection_history (self : Detector)
  : list DetectionEvent :=
  results self.

Definition Detector_clear_history (self : Detector) : Detector :=
  {| detectors := detectors self; results := [] |}.

(** ** Config, as far as the agent reads it *)

#[local] Set Warnings "-register-all".
Inductive ConfigValue :=
| CInt (n : Z)
| CStr (s : string)
| CList (l : list ConfigValue).

Record Config := mkConfig {
  _config : list (string * ConfigValue)
}.

Definition DEFAULT_CONFIG : list (string * ConfigValue) :=
  [("detection_interval", CInt 30);
   ("max_threads", CInt 4);
   ("log_level", CStr "INFO");
   ("output_format", CStr "json");
   ("enabled_detectors", CList [CStr "file"; CStr "network"; CStr "process"])].

(** [Config()], without a configuration file. *)
Definition Config_init : Config := {| _config := DEFAULT_CONFIG |}.

Definition Config_get (self : Config) (key : string) (default : ConfigValue)
  : ConfigValue :=
  match dict_get (_config self) key with
  | Some v => v
  | None => default
  end.

Definition Config_set (self : Config) (key : string) (value : ConfigValue)
  : Config :=
  {| _config := dict_set (_config self) key value |}.

(** [needle in v] for a string [needle]: membership in a list, substring
    of a string, [TypeError] on a number. *)
Definition py_in (needle : string) (v : ConfigValue) : result bool :=
  match v with
  | CList l =>
      Ok (existsb (fun x => match x with
                            | CStr s => bool_decide (s = needle)
                            | _ => false
                            end) l)
  | CStr s =>
      Ok (match String.index 0 needle s with Some _ => true | None => false end)
  | CInt _ =>
      Raise (mkException "TypeError" "argument of type 'int' is not iterable")
  end.

(** The level constants of the [logging] module, the names for which
    [getattr(logging, name)] is a level [basicConfig] accepts. *)
Definition logging_levels : list string :=
  ["CRITICAL"; "FATAL"; "ERROR"; "WARNING"; "WARN"; "INFO"; "DEBUG"; "NOTSET"].

Definition logging_getattr (v : ConfigValue) : result string :=
  match v with
  | CStr s =>
      if bool_decide (s ∈ logging_levels) then Ok s
      else Raise (mkException "AttributeError"
                    ("module 'logging' has no attribute '" +:+ s +:+ "'"))
  | _ => Raise (mkException "TypeError" "attribute name must be string")
  end.

(** ** DetectionAgent *)

(** The process the agent lives in: the world the detectors observe, the
    records handed to the logger, the callback functions (a function object
    is known by its identity [k]; [call k results] is what calling it
    does), the trace of the calls made, and the threads started so far. *)
Record Host := mkHost {
  world : World;
  log : list (string * string);
  call : nat -> list DetectionEvent -> result unit;
  invoked : list (nat * list DetectionEvent);
  started : list nat;
  is_alive : nat -> bool
}.

Record DetectionAgent := mkAgent {
  config : Config;
  detector : Detector;
  _running : bool;
  _thread : option nat;
  _callbacks : list nat
}.

Definition AgentState : Type := DetectionAgent * Host.

Definition set_world (w : World) (h : Host) : Host :=
  {| world := w; log := log h; call := call h; invoked := invoked h;
     started := started h; is_alive := is_alive h |}.

Definition set_detector (d : Detector) (a : DetectionAgent) : DetectionAgent :=
  {| config := config a; detector := d; _running := _running a;
     _thread := _thread a; _callbacks := _callbacks a |}.

Definition set_callbacks (l : list nat) (a : DetectionAgent)
  : DetectionAgent :=
  {| config := config a; detector := detector a; _running := _running a;
     _thread := _thread a; _callbacks := l |}.

Definition set_running (b : bool) (a : DetectionAgent) : DetectionAgent :=
  {| config := config a; detector := detector a; _running := b;
     _thread := _thread a; _callbacks := _callbacks a |}.

Definition set_thread (t : option nat) (a : DetectionAgent)
  : DetectionAgent :=
  {| config := config a; detector := detector a; _running := _running a;
     _thread := t; _callbacks := _callbacks a |}.

Definition add_log (records : list (string * string)) (h : Host) : Host :=
  {| world := world h; log := log h ++ records; call := call h;
     invoked := invoked h; started := started h; is_alive := is_alive h |}.

Definition add_invoked (calls : list (nat * list DetectionEvent)) (h : Host)
  : Host :=
  {| world := world h; log := log h; call := call h;
     invoked := invoked h ++ calls; started := started h;
     is_alive := is_alive h |}.

Definition add_started (thread : nat) (h : Host) : Host :=
  {| world := world h; log := log h; call := call h; invoked := invoked h;
     started := started h ++ [thread]; is_alive := is_alive h |}.

(** [self.logger.<level>(message)]. *)
Definition logger (level message : string) : M AgentState unit :=
  modify (fun '(a, h) => (a, add_log [(level, message)] h)).

(** [callback(results)]: the call is recorded, then the function runs. *)
Definition call_callback (callback : nat) (results : list DetectionEvent)
  : M AgentState unit :=
  fun '(a, h) =>
    (call h callback results, (a, add_invoked [(callback, results)] h)).

(** [try: body / except Exception as e: handler e]. *)
Definition try_except {S A} (body : M S A) (handler : PyException -> M S A)
  : M S A :=
  fun s =>
    match body s with
    | (Ok a, s') => (Ok a, s')
    | (Raise e, s') => handler e s'
    end.

Definition gets {S A} (f : S -> A) : M S A := fun s => (Ok (f s), s).

Definition DetectionAgent_initialize_detectors : M AgentState unit :=
  enabled_detectors <~
    gets (fun '(a, _) => Config_get (config a) "enabled_detectors" (CList [])) ;;
  has_file <~ lift (py_in "file" enabled_detectors) ;;
  (if has_file : bool then
     file_detector <~
       (fun '(a, h) => (FileDetector_init None (fs (world h)), (a, h))) ;;
     modify (fun '(a, h) =>
       (set_detector (Detector_add_detector (detector a) (AFile file_detector))
          a, h)) ;;;
     logger "INFO" "File detector initialized"
   else ret tt) ;;;
  has_process <~ lift (py_in "process" enabled_detectors) ;;
  (if has_process : bool then
     modify (fun '(a, h) =>
       (set_detector
          (Detector_add_detector (detector a) (AProcess ProcessDetector_init))
          a, h)) ;;;
     logger "INFO" "Process detector initialized"
   else ret tt).

(** [DetectionAgent(config)]; [None] is the default argument. *)
Definition DetectionAgent_init (config : option Config) (h : Host)
  : result DetectionAgent * Host :=
  let config := match config with Some c => c | None => Config_init end in
  let self :=
    {| config := config; detector := Detector_init; _running := false;
       _thread := None; _callbacks := [] |} in
  match logging_getattr (Config_get config "log_level" (CStr "INFO")) with
  | Raise e => (Raise e, h)
  | Ok _ =>
      match DetectionAgent_initialize_detectors (self, h) with
      | (Ok _, (self', h')) => (Ok self', h')
      | (Raise e, (_, h')) => (Raise e, h')
      end
  end.

Definition DetectionAgent_add_callback (callback : nat) : M AgentState unit :=
  modify (fun '(a, h) => (set_callbacks (_callbacks a ++ [callback]) a, h)).

(** [list.remove(x)]: the first occurrence goes. *)
Fixpoint list_remove (x : nat) (l : list nat) : list nat :=
  match l with
  | [] => []
  | y :: l' => if decide (y = x) then l' else y :: list_remove x l'
  end.

Definition DetectionAgent_remove_callback (callback : nat)
  : M AgentState bool :=
  fun '(a, h) =>
    if bool_decide (callback ∈ _callbacks a) then
      (Ok true, (set_callbacks (list_remove callback (_callbacks a)) a, h))
    else (Ok false, (a, h)).

Definition DetectionAgent_notify_callbacks (results : list DetectionEvent)
  : M AgentState unit :=
  callbacks <~ gets (fun '(a, _) => _callbacks a) ;;
  for_each callbacks (fun callback =>
    try_except (call_callback callback results)
      (fun e => logger "ERROR" ("Error in callback: " +:+ exc_str e))).

(** [self.detector.run_all_detections()]. *)
Definition self_detector_run_all_detections
  : M AgentState (list DetectionEvent) :=
  fun '(a, h) =>
    let '(r, d, w) := Detector_run_all_detections (detector a) (world h) in
    (r, (set_detector d a, set_world w h)).

Definition DetectionAgent_run_single_detection
  : M AgentState (list DetectionEvent) :=
  logger "DEBUG" "Running single detection cycle" ;;;
  results <~ self_detector_run_all_detections ;;
  (if bool_decide (results ≠ []) then
     logger "INFO" ("Detected " +:+ pretty (List.length results) +:+ " events") ;;;
     DetectionAgent_notify_callbacks results
   else ret tt) ;;;
  ret results.

(** [start()]. The thread object created is known by a fresh identity;
    what the thread then does ([_run_loop]) runs beside the caller and is
    not part of this function. *)
Definition DetectionAgent_start : M AgentState unit :=
  running <~ gets (fun '(a, _) => _running a) ;;
  if running : bool then logger "WARNING" "Agent is already running"
  else
    modify (fun '(a, h) => (set_running true a, h)) ;;;
    modify (fun '(a, h) =>
      let thread := List.length (started h) in
      (set_thread (Some thread) a, add_started thread h)) ;;;
    logger "INFO" "Detection agent started".

(** [self._thread.join(timeout=5.0)] only waits: it changes nothing the
    agent holds. *)
Definition thread_join (timeout : Z) : M AgentState unit := ret tt.

(** [stop()]. *)
Definition DetectionAgent_stop : M AgentState unit :=
  running <~ gets (fun '(a, _) => _running a) ;;
  if negb running then logger "WARNING" "Agent is not running"
  else
    modify (fun '(a, h) => (set_running false a, h)) ;;;
    thread_alive <~
      gets (fun '(a, h) =>
        match _thread a with Some t => is_alive h t | None => false end) ;;
    (if thread_alive : bool then thread_join 5 else ret tt) ;;;
    logger "INFO" "Detection agent stopped".

Definition DetectionAgent_is_running (a : DetectionAgent) : bool :=
  _running a.

Definition DetectionAgent_get_detection_history (a : DetectionAgent)
  : list DetectionEvent :=
  Detector_get_detection_history (detector a).

Definition DetectionAgent_clear_history : M AgentState unit :=
  modify (fun '(a, h) =>
    (set_detector (Detector_clear_history (detector a)) a, h)) ;;;
  logger "INFO" "Detection history cleared".

(** ** Drivers: calls in succession *)

(** [detect()] called once in each world of [ws], in turn; between two
    calls the world may have changed in any way. *)
Fixpoint detect_repeatedly (d : AnyDetector) (ws : list World)
  : list (result (list DetectionEvent)) * AnyDetector :=
  match ws with
  | [] => ([], d)
  | w :: ws' =>
      let '(r, d', _) := detect d w in
      let '(rs, d'') := detect_repeatedly d' ws' in
      (r :: rs, d'')
  end.

(** [run_all_detections()] called once in each world of [ws], in turn. *)
Fixpoint run_cycles (self : Detector) (ws : list World)
  : list (result (list DetectionEvent)) * Detector :=
  match ws with
  | [] => ([], self)
  | w :: ws' =>
      let '(r, self', _) := Detector_run_all_detections self w in
      let '(rs, self'') := run_cycles self' ws' in
      (r :: rs, self'')
  end.

(** The events of a returned batch; a call that raised returned none. *)
Definition batch (r : result (list DetectionEvent)) : list DetectionEvent :=
  match r with Ok evs => evs | Raise _ => [] end.

(** ** What one scan looks at *)

(** The files [detect] compares under one watch path, in the order of the
    loops. *)
Definition observed_under (fs : FileSystem) (path : string) : list string :=
  if negb (os_path_exists fs path) then []
  else if os_path_isfile fs path then [path]
  else if os_path_isdir fs path then
    flat_map (fun '(root, dirs, files) =>
                filter (fun p => os_path_exists fs p = true)
                  (map (os_path_join root) files))
      (os_walk fs path)
  else [].

Definition observed (fs : FileSystem) (watch_paths : list string)
  : list string :=
  flat_map (observed_under fs) watch_paths.

(** The modification time of a file that exists. *)
Definition mtime_of (fs : FileSystem) (path : string) : Z :=
  match os_stat fs path with Some s => st_mtime s | None => 0%Z end.

(** The files [_initialize_cache] records under one watch path. *)
Definition listed_under (fs : FileSystem) (path : string) : list string :=
  if os_path_exists fs path then
    if os_path_isfile fs path then [path]
    else if os_path_isdir fs path then
      flat_map (fun '(root, dirs, files) => map (os_path_join root) files)
        (os_walk fs path)
    else []
  else [].

Definition listed (fs : FileSystem) (watch_paths : list string)
  : list string :=
  flat_map (listed_under fs) watch_paths.

(** One comparison of a scan, on a file that exists. *)
Definition scan_step (fs : FileSystem) (current_time : Z) (st : ScanState)
    (path : string) : ScanState :=
  report_file current_time path (mtime_of fs path) st.

(** The cache holds the current modification time of [path]. *)
Definition cache_agrees (fs : FileSystem) (c : gmap string Z) (path : string)
  : Prop :=
  c !! path = Some (mtime_of fs path).

(** The detector classes of [detector.py] itself. *)
Definition builtin (d : AnyDetector) : bool :=
  match d with
  | AFile _ | AProcess _ => true
  | ACustom _ => false
  end.

(** [self.watch_paths = paths]. *)
Definition set_watch_paths (paths : list string) (self : FileDetector)
  : FileDetector :=
  {| f_base := f_base self; watch_paths := paths;
     _file_cache := _file_cache self |}.

(** The records [_notify_callbacks] logs: one for each callback that
    raises, in the order of the calls. *)
Definition callback_errors (call : nat -> list DetectionEvent -> result unit)
    (callbacks : list nat) (results : list DetectionEvent)
  : list (string * string) :=
  flat_map (fun callback =>
              match call callback results with
              | Ok _ => []
              | Raise e => [("ERROR", "Error in callback: " +:+ exc_str e)]
              end) callbacks.

(** The host after [_notify_callbacks(results)]: every callback called,
    in order, and the failures logged. *)
Definition notified (callbacks : list nat) (results : list DetectionEvent)
    (h : Host) : Host :=
  add_log (callback_errors (call h) callbacks results)
    (add_invoked (map (fun callback => (callback, results)) callbacks) h).

(** ** A small file system to run the model on *)

(** A directory [d] holding two files; [missing] does not exist. *)
Definition demo_fs : FileSystem :=
  {| os_stat := dict_get [("d", mkStat Directory 5);
                          ("d/a.txt", mkStat RegularFile 10);
                          ("d/b.txt", mkStat RegularFile 20)];
     os_walk := fun p =>
       if decide (p = "d") then [("d", [], ["a.txt"; "b.txt"])] else [] |}.

(** The same after [d/c.txt] has been created. *)
Definition demo_fs_new_file : FileSystem :=
  {| os_stat := dict_get [("d", mkStat Directory 30);
                          ("d/a.txt", mkStat RegularFile 10);
                          ("d/b.txt", mkStat RegularFile 20);
                          ("d/c.txt", mkStat RegularFile 30)];
     os_walk := fun p =>
       if decide (p = "d") then [("d", [], ["a.txt"; "b.txt"; "c.txt"])]
       else [] |}.

Definition demo_clock (n : nat) : Z := (100 + Z.of_nat n)%Z.

Definition demo_world : World :=
  {| fs := demo_fs; clock := demo_clock; reads := 0 |}.

Definition demo_world_later : World :=
  {| fs := demo_fs; clock := demo_clock; reads := 7 |}.

Definition demo_world_new_file : World :=
  {| fs := demo_fs_new_file; clock := demo_clock; reads := 9 |}.

(** A FileDetector that has seen nothing yet. *)
Definition demo_detector : FileDetector :=
  {| f_base := BaseDetector_init "file_detector";
     watch_paths := ["d"; "missing"];
     _file_cache := ∅ |}.

(** A detector whose [detect()] always raises, and a coordinator holding
    it before a ProcessDetector. *)
Definition demo_failing : AnyDetector :=
  ACustom {| c_base := BaseDetector_init "error_detector";
             c_state := 0;
             c_detect := fun b s w =>
               (Raise (mkException "Exception" "Test error"), (b, s), w) |}.

Definition demo_coordinator : Detector :=
  Detector_add_detector
    (Detector_add_detector Detector_init demo_failing)
    (AProcess ProcessDetector_init).

(** A host whose current directory holds one file, with two callbacks of
    which the first raises. *)
Definition demo_host : Host :=
  {| world :=
       {| fs := {| os_stat := dict_get [(".", mkStat Directory 5);
                                        ("./notes.txt", mkStat RegularFile 10)];
                   os_walk := fun p =>
                     if decide (p = ".") then [(".", [], ["notes.txt"])]
                     else [] |};
          clock := demo_clock;
          reads := 0 |};
     log := [];
     call := fun callback _ =>
       if decide (callback = 1)
       then Raise (mkException "Exception" "Callback error")
       else Ok tt;
     invoked := [];
     started := [];
     is_alive := fun _ => true |}.

Definition demo_agent : DetectionAgent :=
  {| config := Config_init; detector := demo_coordinator; _running := false;
     _thread := None; _callbacks := [1; 2] |}.

Definition demo_agent_running : DetectionAgent :=
  {| config := Config_init; detector := demo_coordinator; _running := true;
     _thread := Some 0; _callbacks := [1; 2] |}.

(** ** Config: files, copies and validation *)

(** One element of a JSON array as [dict.update] takes it. A sequence of
    two elements is a pair of a key and a value: an array [[key, value]],
    a string of two characters, an object of two keys. Here the key of a
    pair is a string and its value a [ConfigValue]. The other elements make
    the update raise: a pair whose key is an array or an object
    ([type_name] is [list] or [dict]), a sequence of another length, and a
    number, [true], [false] or [null], which is no sequence. *)
Inductive UpdateItem :=
| ItemPair (key : string) (value : ConfigValue)
| ItemUnhashable (type_name : string)
| ItemWrongLength (n : nat)
| ItemNotASequence.

(** What [open(config_file)] followed by [json.load(f)] gives. The document
    read is an object, as a dict of values of [ConfigValue]; an array; a
    string; or a number, [true], [false] or [null], of which [type_name] is
    the Python type ([int], [float], [bool], [NoneType]). Or [json.load]
    raises a [JSONDecodeError]; or [open] or the reading raises another
    exception, an [OSError] or a [UnicodeDecodeError]. *)
Inductive JsonRead :=
| JsonObject (doc : list (string * ConfigValue))
| JsonArray (items : list UpdateItem)
| JsonText (s : string)
| JsonScalar (type_name : string)
| JsonDecodeError (msg : string)
| ReadError (e : PyException).

(** [d.update(other)] for a dict [other]: every item is assigned, in
    order. *)
Definition dict_update {V} (d other : list (string * V))
  : list (string * V) :=
  fold_left (fun d '(k, v) => dict_set d k v) other d.

Definition update_length_error (i n : nat) : PyException :=
  mkException "ValueError"
    ("dictionary update sequence element #" +:+ pretty i +:+ " has length "
     +:+ pretty n +:+ "; 2 is required").

(** [d.update(other)] for a sequence [other], from its element [i] on: the
    pairs are assigned in order up to the first element that is none, and
    what was assigned stays. *)
Fixpoint dict_update_items (d : list (string * ConfigValue))
    (items : list UpdateItem) (i : nat)
  : result unit * list (string * ConfigValue) :=
  match items with
  | [] => (Ok tt, d)
  | ItemPair key value :: rest =>
      dict_update_items (dict_set d key value) rest (Datatypes.S i)
  | ItemUnhashable type_name :: _ =>
      (Raise (mkException "TypeError"
                ("unhashable type: '" +:+ type_name +:+ "'")), d)
  | ItemWrongLength n :: _ => (Raise (update_length_error i n), d)
  | ItemNotASequence :: _ =>
      (Raise (mkException "TypeError"
                ("cannot convert dictionary update sequence element #"
                 +:+ pretty i +:+ " to a sequence")), d)
  end.

Definition Config_load_from_file (self : Config) (config_file : string)
    (read : string -> JsonRead) : result unit * Config :=
  match read config_file with
  | ReadError e => (Raise e, self)
  | JsonDecodeError msg =>
      (Raise (mkException "ValueError"
                ("Invalid JSON in config file: " +:+ msg)), self)
  | JsonObject file_config =>
      (Ok tt, {| _config := dict_update (_config self) file_config |})
  | JsonArray items =>
      let '(r, d) := dict_update_items (_config self) items 0 in
      (r, {| _config := d |})
  | JsonText s =>
      if bool_decide (s = "") then (Ok tt, self)
      else (Raise (update_length_error 0 1), self)
  | JsonScalar type_name =>
      (Raise (mkException "TypeError"
                ("'" +:+ type_name +:+ "' object is not iterable")), self)
  end.

(** [Config(config_file)]; [None] is the default argument, and the empty
    string is as false as [None]. *)
Definition Config_init_file (config_file : option string) (fs : FileSystem)
    (read : string -> JsonRead) : result Config :=
  let self := {| _config := DEFAULT_CONFIG |} in
  match config_file with
  | Some f =>
      if negb (bool_decide (f = "")) && os_path_exists fs f then
        match Config_load_from_file self f read with
        | (Ok _, self') => Ok self'
        | (Raise e, _) => Raise e
        end
      else Ok self
  | None => Ok self
  end.

Definition Config_get_all (self : Config) : list (string * ConfigValue) :=
  _config self.

Definition valid_log_levels : list string :=
  ["DEBUG"; "INFO"; "WARNING"; "ERROR"; "CRITICAL"].

(** [not isinstance(v, int) or v <= 0]. *)
Definition not_positive_int (v : ConfigValue) : bool :=
  match v with
  | CInt n => (n <=? 0)%Z
  | _ => true
  end.

(** [v not in valid_log_levels]. *)
Definition not_a_log_level (v : ConfigValue) : bool :=
  match v with
  | CStr s => negb (bool_decide (s ∈ valid_log_levels))
  | _ => true
  end.

Definition Config_validate (self : Config) : bool :=
  let required_keys := ["detection_interval"; "max_threads"; "log_level"] in
  if negb (forallb (fun key =>
                      bool_decide (is_Some (dict_get (_config self) key)))
             required_keys) then false
  else if not_positive_int
            (Config_get self "detection_interval" (CInt 0)) then false
  else if not_positive_int (Config_get self "max_threads" (CInt 0)) then false
  else if not_a_log_level (Config_get self "log_level" (CInt 0)) then false
  else true.

(** ** The body of the background loop *)

(** The longest sleep, in seconds, whose count of nanoseconds fits the
    64-bit integer CPython keeps it in. *)
Definition max_sleep_seconds : Z := 9223372036.

(** [time.sleep(secs)] of CPython 3.11. A string or a list is a
    [TypeError]. A whole number beyond [max_sleep_seconds], above or below
    zero, is an [OverflowError]; a negative one within is a [ValueError].
    Any other is handed to the system, which sleeps that long where it
    takes a sleep of that length, and where it does not the call fails
    with an [OSError]; [accepts] says which lengths the system takes. *)
Definition time_sleep (accepts : Z -> bool) (secs : ConfigValue) : result Z :=
  match secs with
  | CInt n =>
      if (n <? - max_sleep_seconds)%Z || (max_sleep_seconds <? n)%Z
      then Raise (mkException "OverflowError"
                    "timestamp too large to convert to C _PyTime_t")
      else if (n <? 0)%Z
      then Raise (mkException "ValueError" "sleep length must be non-negative")
      else if accepts n then Ok n
      else Raise (mkException "OSError" "[Errno 22] Invalid argument")
  | CStr _ =>
      Raise (mkException "TypeError"
               "'str' object cannot be interpreted as an integer")
  | CList _ =>
      Raise (mkException "TypeError"
               "'list' object cannot be interpreted as an integer")
  end.

(** The thread that runs the loop: the agent and its host, and the
    lengths of the sleeps it has taken. *)
Definition LoopState : Type := AgentState * list Z.

Definition on_agent {A} (m : M AgentState A) : M LoopState A :=
  fun '(s, sleeps) => let '(r, s') := m s in (r, (s', sleeps)).

Definition sleep (accepts : Z -> bool) (secs : ConfigValue)
  : M LoopState unit :=
  fun '(s, sleeps) =>
    match time_sleep accepts secs with
    | Ok n => (Ok tt, (s, sleeps ++ [n]))
    | Raise e => (Raise e, (s, sleeps))
    end.

(** [interval = self.config.get("detection_interval", 30)], read once
    before the loop. *)
Definition loop_interval (a : DetectionAgent) : ConfigValue :=
  Config_get (config a) "detection_interval" (CInt 30).

(** The body of [while self._running:] in [_run_loop]. *)
Definition run_loop_body (accepts : Z -> bool) (interval : ConfigValue)
  : M LoopState unit :=
  try_except
    (on_agent DetectionAgent_run_single_detection ;;; sleep accepts interval)
    (fun e =>
       on_agent (logger "ERROR" ("Error in detection loop: " +:+ exc_str e)) ;;;
       sleep accepts (CInt 1)).

(** ** get_status *)

Record DetectorStatus := mkDetectorStatus {
  status_enabled : bool;
  status_last_detection : option Z
}.

(** The dict [get_status()] returns, one field for each of its keys. *)
Record Status := mkStatus {
  status_running : bool;
  status_config : list (string * ConfigValue);
  status_detectors : list (string * DetectorStatus);
  status_detection_count : nat;
  status_callbacks_registered : nat
}.

Definition DetectionAgent_get_status (a : DetectionAgent) : Status :=
  let detector_status :=
    fold_left (fun detector_status '(name, d) =>
                 dict_set detector_status name
                   {| status_enabled := is_enabled d;
                      status_last_detection :=
                        last_detection_time (base d) |})
      (detectors (detector a)) [] in
  {| status_running := _running a;
     status_config := Config_get_all (config a);
     status_detectors := detector_status;
     status_detection_count :=
       length (Detector_get_detection_history (detector a));
     status_callbacks_registered := length (_callbacks a) |}.

(** ** Readings of a batch *)

(** The path a [file_change] event reports, and the time an event bears. *)
Definition event_path (ev : DetectionEvent) : option PyValue :=
  dict_get ev "path".

Definition event_timestamp (ev : DetectionEvent) : option PyValue :=
  dict_get ev "timestamp".

(** The event [detect] returns for a file whose modification time is not
    the cached one. *)
Definition change_event (c : gmap string Z) (current_time : Z)
    (path : string) : DetectionEvent :=
  file_change_event path current_time
    (if bool_decide (is_Some (c !! path)) then "modified" else "created").

(** Two detectors of one class: both FileDetectors, and then with the same
    watch paths, both ProcessDetectors, or both detectors of the host
    program. *)
Definition same_class (d d' : AnyDetector) : Prop :=
  match d, d' with
  | AFile f, AFile f' => watch_paths f' = watch_paths f
  | AProcess _, AProcess _ => True
  | ACustom _, ACustom _ => True
  | _, _ => False
  end.

(** What a run of the coordinator leaves of a registration: the key and the
    class of the detector, and of a detector of [detector.py] its name and
    its flag. *)
Definition same_registration (kd kd' : string * AnyDetector) : Prop :=
  kd'.1 = kd.1 /\
  same_class kd.2 kd'.2 /\
  (builtin kd.2 = true ->
   name (base kd'.2) = name (base kd.2) /\
   enabled (base kd'.2) = enabled (base kd.2)).

(** A coordinator holding an enabled ProcessDetector after a detector that
    is disabled. *)
Definition demo_coordinator_disabled : Detector :=
  Detector_add_detector
    (Detector_add_detector Detector_init (disable demo_failing))
    (AProcess ProcessDetector_init).

(** What holds of the events of a scan at any point: no event occurs
    twice, and each is a [file_change] event of the time of the scan for a
    file on which the cache now agrees. *)
Definition scan_invariant (fs : FileSystem) (current_time : Z)
    (st : ScanState) : Prop :=
  NoDup (detections st) /\
  forall ev, In ev (detections st) ->
    exists path action,
      ev = file_change_event path current_time action /\
      cache_agrees fs (cache st) path.

(** The file system of [demo_fs] after [d/a.txt] has been written to. *)
Definition demo_fs_modified : FileSystem :=
  {| os_stat := dict_get [("d", mkStat Directory 5);
                          ("d/a.txt", mkStat RegularFile 40);
                          ("d/b.txt", mkStat RegularFile 20)];
     os_walk := os_walk demo_fs |}.

Definition demo_world_modified : World :=
  {| fs := demo_fs_modified; clock := demo_clock; reads := 11 |}.

(** A FileDetector that has seen the two files of [demo_fs]. *)
Definition demo_detector_seen : FileDetector :=
  {| f_base := BaseDetector_init "file_detector";
     watch_paths := ["d"];
     _file_cache := {["d/a.txt" := 10%Z; "d/b.txt" := 20%Z]} |}.

(** Readers of configuration files for the runs below: one file holds an
    object that overrides the interval and names one more key, one is not
    JSON, one holds the number 5, one an array of a pair and a number. *)
Definition demo_read (config_file : string) : JsonRead :=
  if decide (config_file = "agent.json") then
    JsonObject [("detection_interval", CInt 5); ("site", CStr "lab")]
  else if decide (config_file = "broken.json") then
    JsonDecodeError "Expecting value: line 1 column 1 (char 0)"
  else if decide (config_file = "five.json") then JsonScalar "int"
  else if decide (config_file = "array.json") then
    JsonArray [ItemPair "site" (CStr "lab"); ItemNotASequence]
  else ReadError (mkException "FileNotFoundError" config_file).

Definition demo_config_fs : FileSystem :=
  {| os_stat := dict_get [("agent.json", mkStat RegularFile 1);
                          ("broken.json", mkStat RegularFile 2);
                          ("five.json", mkStat RegularFile 3);
                          ("array.json", mkStat RegularFile 4)];
     os_walk := fun _ => [] |}.

(** The elements of a sequence that are pairs, as a dict would hold
    them. *)
Definition pair_items (doc : list (string * ConfigValue)) : list UpdateItem :=
  map (fun '(key, value) => ItemPair key value) doc.

Definition is_pair (item : UpdateItem) : bool :=
  match item with ItemPair _ _ => true | _ => false end.

(** The class of the exception a computation raised, if it raised. *)
Definition exc_class_of {A} (r : result A) : option string :=
  match r with Ok _ => None | Raise e => Some (exc_class e) end.

(** A system that takes a sleep of up to a thousand days. *)
Definition demo_accepts (secs : Z) : bool := (secs <=? 86400000)%Z.

(** ** Loops *)

Section Loops.
Context {S B : Type}.
Implicit Types (body : B -> M S unit) (l : list B) (s : S).

Lemma for_each_app l1 l2 body s :
  for_each (l1 ++ l2) body s =
  match for_each l1 body s with
  | (Ok _, s') => for_each l2 body s'
  | (Raise e, s') => (Raise e, s')
  end.
Proof.
  revert s. induction l1 as [|x l1 IH]; intros s; simpl.
  - reflexivity.
  - unfold bind. destruct (body x s) as [[[]|e] s']; [apply IH | reflexivity].
Qed.

(** A loop whose body never raises is a fold. *)
Lemma for_each_fold l body (g : S -> B -> S) s :
  (forall x s0, In x l -> body x s0 = (Ok tt, g s0 x)) ->
  for_each l body s = (Ok tt, fold_left g l s).
Proof.
  revert s. induction l as [|x l IH]; intros s Hb; simpl.
  - reflexivity.
  - unfold bind. rewrite Hb by (left; reflexivity).
    apply IH. intros y s0 Hy. apply Hb. right; exact Hy.
Qed.

(** A property every successful body establishes holds after a
    successful loop. *)
Lemma for_each_invariant (P : S -> Prop) l body s s' :
  (forall x s0 s1, In x l -> P s0 -> body x s0 = (Ok tt, s1) -> P s1) ->
  P s -> for_each l body s = (Ok tt, s') -> P s'.
Proof.
  revert s. induction l as [|x l IH]; intros s Hb Hs; simpl.
  - intros [= <-]. exact Hs.
  - unfold bind. destruct (body x s) as [[[]|e] s1] eqn:E; [|discriminate].
    apply IH.
    + intros y s0 s2 Hy. apply Hb. right; exact Hy.
    + eapply Hb; [left; reflexivity | exact Hs | exact E].
Qed.

(** What the body establishes for its own element, and no later body
    undoes, holds for every element after a successful loop. *)
Lemma for_each_each (R : B -> S -> Prop) l body s s' :
  (forall x s0 s1, In x l -> body x s0 = (Ok tt, s1) -> R x s1) ->
  (forall x y s0 s1, In y l -> R x s0 -> body y s0 = (Ok tt, s1) -> R x s1) ->
  for_each l body s = (Ok tt, s') ->
  forall x, In x l -> R x s'.
Proof.
  revert s. induction l as [|y l IH]; intros s Hown Hkeep; simpl.
  - intros _ x [].
  - unfold bind. destruct (body y s) as [[[]|e] s1] eqn:E; [|discriminate].
    intros Hrest x [<-|Hx].
    + eapply (for_each_invariant (R y)); [| |exact Hrest].
      * intros z s0 s2 Hz. apply Hkeep. right; exact Hz.
      * eapply Hown; [left; reflexivity | exact E].
    + eapply IH; [| |exact Hrest|exact Hx].
      * intros z s0 s2 Hz. apply Hown. right; exact Hz.
      * intros z z' s0 s2 Hz'. apply Hkeep. right; exact Hz'.
Qed.
End Loops.

Lemma fold_left_flat_map {A B C} (f : A -> C -> A) (g : B -> list C)
    (l : list B) (a : A) :
  fold_left f (flat_map g l) a =
  fold_left (fun a x => fold_left f (g x) a) l a.
Proof.
  revert a. induction l as [|x l IH]; intros a; simpl.
  - reflexivity.
  - rewrite fold_left_app. apply IH.
Qed.

Lemma fold_left_filter_map {A B C} (f : A -> C -> A) (h : B -> C)
    (P : C -> Prop) `{!forall c, Decision (P c)} (l : list B) (a : A) :
  fold_left f (filter P (map h l)) a =
  fold_left (fun a x => if decide (P (h x)) then f a (h x) else a) l a.
Proof.
  revert a. induction l as [|x l IH]; intros a; simpl.
  - reflexivity.
  - rewrite filter_cons. destruct (decide (P (h x))); simpl; apply IH.
Qed.

(** ** One scan of the FileDetector *)

Lemma getmtime_exists fs p :
  os_path_exists fs p = true -> os_path_getmtime fs p = Ok (mtime_of fs p).
Proof.
  unfold os_path_exists, os_path_getmtime, mtime_of.
  destruct (os_stat fs p); [reflexivity | discriminate].
Qed.

Lemma isfile_exists fs p :
  os_path_isfile fs p = true -> os_path_exists fs p = true.
Proof.
  unfold os_path_isfile, os_path_exists.
  destruct (os_stat fs p); [reflexivity | discriminate].
Qed.

Lemma check_file_exists fs t p st :
  os_path_exists fs p = true ->
  check_file fs t p st = (Ok tt, scan_step fs t st p).
Proof.
  intros He. unfold check_file, bind, lift, modify, scan_step.
  rewrite (getmtime_exists _ _ He). reflexivity.
Qed.

(** The loops of [detect] never raise: they are a fold of [scan_step] over
    the files observed. *)
Lemma detect_loop_fold fs t paths st :
  FileDetector_detect_loop fs t paths st =
  (Ok tt, fold_left (scan_step fs t) (observed fs paths) st).
Proof.
  unfold FileDetector_detect_loop, observed.
  rewrite fold_left_flat_map.
  apply for_each_fold. intros path s0 _. unfold observed_under.
  destruct (os_path_exists fs path) eqn:He; simpl; [|reflexivity].
  destruct (os_path_isfile fs path) eqn:Hf; simpl.
  { apply check_file_exists, He. }
  destruct (os_path_isdir fs path); simpl; [|reflexivity].
  rewrite fold_left_flat_map.
  apply for_each_fold. intros [[root dirs] files] s1 _.
  rewrite fold_left_filter_map.
  apply for_each_fold. intros file s2 _. simpl.
  destruct (os_path_exists fs (os_path_join root file)) eqn:Hj.
  - rewrite decide_True by reflexivity. apply check_file_exists, Hj.
  - rewrite decide_False by discriminate. reflexivity.
Qed.

Lemma observed_exists fs paths p :
  In p (observed fs paths) -> os_path_exists fs p = true.
Proof.
  unfold observed. rewrite in_flat_map. intros (path & _ & Hp).
  unfold observed_under in Hp.
  destruct (os_path_exists fs path) eqn:He; simpl in Hp; [|destruct Hp].
  destruct (os_path_isfile fs path).
  { destruct Hp as [<-|[]]. exact He. }
  destruct (os_path_isdir fs path); [|destruct Hp].
  apply in_flat_map in Hp. destruct Hp as ([[root dirs] files] & _ & Hp).
  apply list_elem_of_In, list_elem_of_filter in Hp. apply Hp.
Qed.

(** A scan step leaves the cache in agreement on its own file, and keeps
    the agreement on every other. *)
Lemma scan_step_agrees fs t st p :
  cache_agrees fs (cache (scan_step fs t st p)) p.
Proof.
  unfold scan_step, report_file, file_changed, cache_agrees.
  destruct (cache st !! p) as [m|] eqn:E; simpl.
  - destruct (Z.eqb_spec m (mtime_of fs p)) as [->|Hne]; simpl.
    + exact E.
    + apply lookup_insert_eq.
  - apply lookup_insert_eq.
Qed.

Lemma scan_step_keeps fs t st p q :
  cache_agrees fs (cache st) q ->
  cache_agrees fs (cache (scan_step fs t st p)) q.
Proof.
  unfold scan_step, report_file, cache_agrees. intros Hq.
  destruct (file_changed (cache st) p (mtime_of fs p)); simpl; [|exact Hq].
  destruct (decide (p = q)) as [->|Hne].
  - apply lookup_insert_eq.
  - rewrite lookup_insert_ne by exact Hne. exact Hq.
Qed.

Lemma scan_keeps fs t l st q :
  cache_agrees fs (cache st) q ->
  cache_agrees fs (cache (fold_left (scan_step fs t) l st)) q.
Proof.
  revert st. induction l as [|p l IH]; intros st Hq; simpl.
  - exact Hq.
  - apply IH, scan_step_keeps, Hq.
Qed.

Lemma scan_agrees fs t l st q :
  In q l -> cache_agrees fs (cache (fold_left (scan_step fs t) l st)) q.
Proof.
  revert st. induction l as [|p l IH]; intros st; simpl.
  - intros [].
  - intros [->|Hq].
    + apply scan_keeps, scan_step_agrees.
    + apply IH, Hq.
Qed.

(** A file the cache agrees on is not reported. *)
Lemma scan_step_quiet fs t st p :
  cache_agrees fs (cache st) p -> scan_step fs t st p = st.
Proof.
  unfold cache_agrees, scan_step, report_file, file_changed. intros ->.
  rewrite Z.eqb_refl. reflexivity.
Qed.

Lemma scan_quiet fs t l st :
  (forall p, In p l -> cache_agrees fs (cache st) p) ->
  fold_left (scan_step fs t) l st = st.
Proof.
  revert st. induction l as [|p l IH]; intros st H; simpl.
  - reflexivity.
  - rewrite scan_step_quiet by (apply H; left; reflexivity).
    apply IH. intros q Hq. apply H. right; exact Hq.
Qed.

(** [detect] on an enabled FileDetector: one clock reading, one scan, the
    time of the reading recorded. *)
Lemma FileDetector_detect_enabled self w :
  enabled (f_base self) = true ->
  FileDetector_detect self w =
  let current_time := clock w (reads w) in
  let st := fold_left (scan_step (fs w) current_time)
              (observed (fs w) (watch_paths self))
              {| cache := _file_cache self; detections := [] |} in
  (Ok (detections st),
   {| f_base := set_last_detection_time (f_base self) current_time;
      watch_paths := watch_paths self;
      _file_cache := cache st |},
   (time_time w).2).
Proof.
  intros He. unfold FileDetector_detect. rewrite He. simpl.
  rewrite detect_loop_fold. reflexivity.
Qed.

Lemma FileDetector_detect_disabled self w :
  enabled (f_base self) = false ->
  FileDetector_detect self w = (Ok [], self, w).
Proof. intros He. unfold FileDetector_detect. rewrite He. reflexivity. Qed.

(** A scan of a detector whose cache agrees on every file observed reports
    nothing and leaves the cache as it is. *)
Lemma FileDetector_detect_quiet self w :
  (forall p, In p (observed (fs w) (watch_paths self)) ->
             cache_agrees (fs w) (_file_cache self) p) ->
  (FileDetector_detect self w).1.1 = Ok [] /\
  _file_cache (FileDetector_detect self w).1.2 = _file_cache self.
Proof.
  intros Hagree. destruct (enabled (f_base self)) eqn:He.
  - rewrite FileDetector_detect_enabled by exact He. simpl.
    rewrite scan_quiet by exact Hagree. split; reflexivity.
  - rewrite FileDetector_detect_disabled by exact He. split; reflexivity.
Qed.

(** C6. Two calls of [detect()] in succession on a FileDetector, the file
    system being the same at both: the first call leaves the cache in
    agreement with the modification time of every file it observed, and the
    second call returns no event and leaves the cache as it is. *)
Theorem detect_twice_second_is_empty (self : FileDetector) (w w2 : World) :
  fs w2 = fs w ->
  let self1 := (FileDetector_detect self w).1.2 in
  (enabled (f_base self) = true ->
   forall p, In p (observed (fs w) (watch_paths self)) ->
             cache_agrees (fs w) (_file_cache self1) p) /\
  (FileDetector_detect self1 w2).1.1 = Ok [] /\
  _file_cache (FileDetector_detect self1 w2).1.2 = _file_cache self1.
Proof.
  intros Hfs self1. subst self1.
  destruct (enabled (f_base self)) eqn:He.
  - rewrite FileDetector_detect_enabled by exact He. simpl.
    assert (Hagree : forall p, In p (observed (fs w) (watch_paths self)) ->
      cache_agrees (fs w)
        (cache (fold_left (scan_step (fs w) (clock w (reads w)))
                  (observed (fs w) (watch_paths self))
                  {| cache := _file_cache self; detections := [] |})) p).
    { intros p Hp. apply scan_agrees, Hp. }
    split; [intros _; exact Hagree|].
    apply FileDetector_detect_quiet. simpl. rewrite Hfs. exact Hagree.
  - rewrite FileDetector_detect_disabled by exact He.
    split; [discriminate|].
    rewrite FileDetector_detect_disabled by exact He. split; reflexivity.
Qed.

Lemma detect_twice_second_is_empty_witness :
  (FileDetector_detect (FileDetector_detect demo_detector demo_world).1.2
     demo_world_later).1.1 = Ok [].
Proof.
  apply (detect_twice_second_is_empty demo_detector demo_world
           demo_world_later).
  reflexivity.
Defined.

(** ** The baseline snapshot *)

Section FlatLoops.
Context {S : Type}.

Lemma for_each_ext {B} (l : list B) (body body' : B -> M S unit) s :
  (forall x s0, In x l -> body x s0 = body' x s0) ->
  for_each l body s = for_each l body' s.
Proof.
  revert s. induction l as [|x l IH]; intros s Hb; simpl.
  - reflexivity.
  - unfold bind. rewrite Hb by (left; reflexivity).
    destruct (body' x s) as [[[]|e] s1]; [|reflexivity].
    apply IH. intros y s0 Hy. apply Hb. right; exact Hy.
Qed.

Lemma for_each_map {B C} (h : B -> C) (l : list B) (body : C -> M S unit) s :
  for_each (map h l) body s = for_each l (fun x => body (h x)) s.
Proof.
  revert s. induction l as [|x l IH]; intros s; simpl.
  - reflexivity.
  - unfold bind. destruct (body (h x) s) as [[[]|e] s1]; [apply IH|reflexivity].
Qed.

Lemma for_each_flat_map {B C} (g : B -> list C) (l : list B)
    (body : C -> M S unit) s :
  for_each (flat_map g l) body s =
  for_each l (fun x => for_each (g x) body) s.
Proof.
  revert s. induction l as [|x l IH]; intros s; simpl.
  - reflexivity.
  - rewrite for_each_app. unfold bind.
    destruct (for_each (g x) body s) as [[[]|e] s1]; [apply IH|reflexivity].
Qed.
End FlatLoops.

(** [_initialize_cache] records the files listed, one after the other. *)
Lemma initialize_cache_flat fs paths c :
  FileDetector_initialize_cache fs paths c =
  for_each (listed fs paths) (cache_mtime fs) c.
Proof.
  unfold FileDetector_initialize_cache, listed.
  rewrite for_each_flat_map. apply for_each_ext. intros path s0 _.
  unfold listed_under.
  destruct (os_path_exists fs path); [|reflexivity].
  destruct (os_path_isfile fs path).
  { simpl. unfold bind. destruct (cache_mtime fs path s0) as [[[]|e] s1];
      reflexivity. }
  destruct (os_path_isdir fs path); [|reflexivity].
  rewrite for_each_flat_map. apply for_each_ext. intros [[root dirs] files] s1 _.
  rewrite for_each_map. reflexivity.
Qed.

Lemma cache_mtime_ok fs p c c' :
  cache_mtime fs p c = (Ok tt, c') ->
  os_path_exists fs p = true /\ c' = <[p := mtime_of fs p]> c.
Proof.
  unfold cache_mtime, bind, lift, modify, os_path_getmtime, os_path_exists,
    mtime_of.
  destruct (os_stat fs p); [|discriminate].
  intros [= <-]. split; reflexivity.
Qed.

Lemma cache_mtime_exists fs p c :
  os_path_exists fs p = true ->
  cache_mtime fs p c = (Ok tt, <[p := mtime_of fs p]> c).
Proof.
  intros He. unfold cache_mtime, bind, lift, modify.
  rewrite (getmtime_exists _ _ He). reflexivity.
Qed.

(** After a snapshot that did not raise, the cache agrees on every file
    listed, and every file listed exists. *)
Lemma initialize_cache_agrees fs paths c c' :
  FileDetector_initialize_cache fs paths c = (Ok tt, c') ->
  forall p, In p (listed fs paths) ->
            cache_agrees fs c' p /\ os_path_exists fs p = true.
Proof.
  rewrite initialize_cache_flat. intros Hrun.
  apply (for_each_each
           (fun p c0 => cache_agrees fs c0 p /\ os_path_exists fs p = true)
           _ _ _ _) with (3 := Hrun).
  - intros p s0 s1 _ Hb. apply cache_mtime_ok in Hb as [He ->].
    split; [apply lookup_insert_eq | exact He].
  - intros p q s0 s1 _ [Hp He] Hb. apply cache_mtime_ok in Hb as [_ ->].
    split; [|exact He]. unfold cache_agrees in *.
    destruct (decide (q = p)) as [->|Hne].
    + apply lookup_insert_eq.
    + rewrite lookup_insert_ne by exact Hne. exact Hp.
Qed.

(** The snapshot records only files that exist. *)
Lemma initialize_cache_only_existing fs paths c c' :
  (forall p m, c !! p = Some m -> os_path_exists fs p = true) ->
  FileDetector_initialize_cache fs paths c = (Ok tt, c') ->
  forall p m, c' !! p = Some m -> os_path_exists fs p = true.
Proof.
  rewrite initialize_cache_flat. intros Hc Hrun.
  apply (for_each_invariant
           (fun c0 => forall p m, c0 !! p = Some m ->
                                  os_path_exists fs p = true)
           _ _ _ _) with (3 := Hrun); [|exact Hc].
  intros q s0 s1 _ Hs0 Hb p m. apply cache_mtime_ok in Hb as [He ->].
  destruct (decide (q = p)) as [->|Hne].
  - intros _. exact He.
  - rewrite lookup_insert_ne by exact Hne. apply Hs0.
Qed.

(** Where every file listed exists, the snapshot does not raise. *)
Lemma initialize_cache_total fs paths c :
  (forall p, In p (listed fs paths) -> os_path_exists fs p = true) ->
  exists c', FileDetector_initialize_cache fs paths c = (Ok tt, c').
Proof.
  rewrite initialize_cache_flat. intros Hall.
  rewrite (for_each_fold _ _ (fun c0 p => <[p := mtime_of fs p]> c0)).
  - eexists. reflexivity.
  - intros p s0 Hp. apply cache_mtime_exists, Hall, Hp.
Qed.

Lemma observed_listed fs paths p :
  In p (observed fs paths) -> In p (listed fs paths).
Proof.
  unfold observed, listed. rewrite !in_flat_map.
  intros (path & Hpath & Hp). exists path. split; [exact Hpath|].
  unfold observed_under, listed_under in *.
  destruct (os_path_exists fs path); simpl in *; [|exact Hp].
  destruct (os_path_isfile fs path); [exact Hp|].
  destruct (os_path_isdir fs path); [|exact Hp].
  apply in_flat_map in Hp. destruct Hp as ([[root dirs] files] & Hw & Hp).
  apply in_flat_map. exists (root, dirs, files). split; [exact Hw|].
  apply list_elem_of_In, list_elem_of_filter in Hp.
  apply list_elem_of_In, Hp.
Qed.

Lemma FileDetector_init_ok watch fs d :
  FileDetector_init watch fs = Ok d ->
  enabled (f_base d) = true /\
  name (f_base d) = "file_detector" /\
  last_detection_time (f_base d) = None /\
  (forall p, In p (listed fs (watch_paths d)) ->
             cache_agrees fs (_file_cache d) p) /\
  (forall p m, _file_cache d !! p = Some m -> os_path_exists fs p = true).
Proof.
  unfold FileDetector_init.
  set (paths := match watch with
                | None | Some [] => ["."]
                | Some l => l
                end).
  destruct (FileDetector_initialize_cache fs paths ∅) as [[[]|e] c] eqn:E;
    [|discriminate].
  intros [= <-]. simpl. repeat split.
  - intros p Hp. eapply initialize_cache_agrees; [exact E | exact Hp].
  - eapply initialize_cache_only_existing; [|exact E].
    intros p m. rewrite lookup_empty. discriminate.
Qed.

(** A scan in which one file [p] is new to the cache, and the cache agrees
    on every other file observed, reports [p] as created, once. *)
Lemma scan_one_created fs t p l st :
  cache st !! p = None ->
  In p l ->
  (forall q, In q l -> q <> p -> cache_agrees fs (cache st) q) ->
  fold_left (scan_step fs t) l st =
  {| cache := <[p := mtime_of fs p]> (cache st);
     detections := detections st ++ [file_change_event p t "created"] |}.
Proof.
  revert st. induction l as [|q l IH]; intros st Hnew Hin Hothers; simpl.
  - destruct Hin.
  - destruct (decide (q = p)) as [->|Hne].
    + assert (Hstep : scan_step fs t st p =
        {| cache := <[p := mtime_of fs p]> (cache st);
           detections := detections st ++ [file_change_event p t "created"] |}).
      { unfold scan_step, report_file, file_changed. rewrite Hnew.
        reflexivity. }
      rewrite Hstep. apply scan_quiet. simpl. intros q Hq.
      unfold cache_agrees.
      destruct (decide (q = p)) as [->|Hne].
      * apply lookup_insert_eq.
      * rewrite lookup_insert_ne by (intros ->; apply Hne; reflexivity).
        apply Hothers; [right; exact Hq | exact Hne].
    + rewrite scan_step_quiet
        by (apply Hothers; [left; reflexivity | exact Hne]).
      apply IH.
      * exact Hnew.
      * destruct Hin as [->|Hin]; [contradiction Hne; reflexivity | exact Hin].
      * intros q' Hq'. apply Hothers. right; exact Hq'.
Qed.

Lemma cache_agrees_same_stat fs fs' c q :
  os_stat fs' q = os_stat fs q ->
  cache_agrees fs c q -> cache_agrees fs' c q.
Proof. unfold cache_agrees, mtime_of. intros ->. exact id. Qed.

(** C5. A FileDetector constructed over a file system [fs0] holds in its
    cache the modification time of every file listed under its watch
    paths; the first [detect()], the file system being as at construction,
    returns no event; and once one file [p] that did not exist has been
    created, every other file observed being one observed before and
    unchanged, the next [detect()] returns exactly one event: a dict of
    four fields whose [type] is [file_change], whose [path] is [p], whose
    [action] is [created] and whose [timestamp] is the time of the call. *)
Theorem cold_start_then_one_created (watch : option (list string))
    (fs0 : FileSystem) (d : FileDetector) (w1 w2 : World) (p : string) :
  FileDetector_init watch fs0 = Ok d ->
  fs w1 = fs0 ->
  let d1 := (FileDetector_detect d w1).1.2 in
  (forall q, In q (listed fs0 (watch_paths d)) ->
             cache_agrees fs0 (_file_cache d) q) /\
  (FileDetector_detect d w1).1.1 = Ok [] /\
  (os_stat fs0 p = None ->
   In p (observed (fs w2) (watch_paths d)) ->
   (forall q, In q (observed (fs w2) (watch_paths d)) -> q <> p ->
              In q (observed fs0 (watch_paths d)) /\
              os_stat (fs w2) q = os_stat fs0 q) ->
   exists ev,
     (FileDetector_detect d1 w2).1.1 = Ok [ev] /\
     ev = file_change_event p (clock w2 (reads w2)) "created" /\
     dict_keys ev = ["type"; "path"; "timestamp"; "action"] /\
     event_type ev = Some (PStr "file_change") /\
     event_path ev = Some (PStr p) /\
     dict_get ev "action" = Some (PStr "created") /\
     event_timestamp ev = Some (PFloat (clock w2 (reads w2)))).
Proof.
  intros Hinit Hfs d1.
  destruct (FileDetector_init_ok _ _ _ Hinit)
    as (Hen & _ & _ & Hlisted & Hexist).
  assert (Hquiet : forall q, In q (observed (fs w1) (watch_paths d)) ->
                             cache_agrees (fs w1) (_file_cache d) q).
  { rewrite Hfs. intros q Hq. apply Hlisted, observed_listed, Hq. }
  destruct (FileDetector_detect_quiet d w1 Hquiet) as [Hnone Hsame].
  split; [exact Hlisted|]. split; [exact Hnone|].
  intros Hnew Hin Hothers.
  exists (file_change_event p (clock w2 (reads w2)) "created").
  split; [|repeat split].
  assert (Hen1 : enabled (f_base d1) = true).
  { subst d1. rewrite FileDetector_detect_enabled by exact Hen. exact Hen. }
  assert (Hpaths : watch_paths d1 = watch_paths d).
  { subst d1. rewrite FileDetector_detect_enabled by exact Hen. reflexivity. }
  rewrite FileDetector_detect_enabled by exact Hen1. simpl.
  rewrite Hpaths.
  rewrite (scan_one_created _ _ p); [reflexivity | | exact Hin |].
  - simpl. fold d1 in Hsame. rewrite Hsame.
    destruct (_file_cache d !! p) as [m|] eqn:E; [|reflexivity].
    apply Hexist in E. unfold os_path_exists in E. rewrite Hnew in E.
    discriminate.
  - simpl. fold d1 in Hsame. rewrite Hsame. intros q Hq Hne.
    destruct (Hothers q Hq Hne) as [Hobs Hstat].
    apply (cache_agrees_same_stat fs0); [exact Hstat|].
    apply Hlisted, observed_listed, Hobs.
Qed.

Lemma cold_start_then_one_created_witness :
  (FileDetector_detect
     {| f_base := BaseDetector_init "file_detector";
        watch_paths := ["d"];
        _file_cache := {["d/a.txt" := 10%Z; "d/b.txt" := 20%Z]} |}
     demo_world).1.1 = Ok [] /\
  (FileDetector_detect
     (FileDetector_detect
        {| f_base := BaseDetector_init "file_detector";
           watch_paths := ["d"];
           _file_cache := {["d/a.txt" := 10%Z; "d/b.txt" := 20%Z]} |}
        demo_world).1.2
     demo_world_new_file).1.1 =
  Ok [[("type", PStr "file_change"); ("path", PStr "d/c.txt");
       ("timestamp", PFloat 109); ("action", PStr "created")]].
Proof.
  assert (Hinit : FileDetector_init (Some ["d"]) demo_fs =
    Ok {| f_base := BaseDetector_init "file_detector";
          watch_paths := ["d"];
          _file_cache := {["d/a.txt" := 10%Z; "d/b.txt" := 20%Z]} |}).
  { vm_compute. reflexivity. }
  destruct (cold_start_then_one_created (Some ["d"]) demo_fs _ demo_world
              demo_world_new_file "d/c.txt" Hinit eq_refl)
    as (_ & Hfirst & Hnext).
  split; [exact Hfirst|].
  destruct Hnext as (ev & Hbatch & Hev & _).
  - reflexivity.
  - vm_compute. right; right; left; reflexivity.
  - intros q Hq Hne. vm_compute in Hq.
    destruct Hq as [<-|[<-|[<-|[]]]].
    + split; [vm_compute; left; reflexivity | reflexivity].
    + split; [vm_compute; right; left; reflexivity | reflexivity].
    + contradiction Hne; reflexivity.
  - rewrite Hbatch, Hev. reflexivity.
Defined.

(** ** The detector contract *)

(** Reads [is_enabled d = b] as a statement on the [enabled] field. *)
Ltac flag_of H :=
  unfold is_enabled, BaseDetector_is_enabled in H; simpl in H.

Lemma FileDetector_detect_watch_paths self w :
  watch_paths (FileDetector_detect self w).1.2 = watch_paths self.
Proof.
  destruct (enabled (f_base self)) eqn:He.
  - rewrite FileDetector_detect_enabled by exact He. reflexivity.
  - rewrite FileDetector_detect_disabled by exact He. reflexivity.
Qed.

Lemma FileDetector_detect_returns self w :
  exists evs, (FileDetector_detect self w).1.1 = Ok evs.
Proof.
  destruct (enabled (f_base self)) eqn:He.
  - rewrite FileDetector_detect_enabled by exact He. eexists. reflexivity.
  - rewrite FileDetector_detect_disabled by exact He. eexists. reflexivity.
Qed.

Lemma detect_disabled d w :
  builtin d = true -> is_enabled d = false -> detect d w = (Ok [], d, w).
Proof.
  destruct d as [f|p|c]; simpl; [| |discriminate]; intros _ He.
  - rewrite FileDetector_detect_disabled by exact He. reflexivity.
  - unfold ProcessDetector_detect.
    flag_of He.
    rewrite He. reflexivity.
Qed.

(** C2. A disabled FileDetector or ProcessDetector: every call of
    [detect()] returns the empty list and leaves the detector, hence its
    [last_detection_time] and its file cache, exactly as it was, and reads
    no clock; so does every sequence of calls. *)
Theorem disabled_detect_changes_nothing (d : AnyDetector) (ws : list World) :
  builtin d = true ->
  is_enabled d = false ->
  (forall w, detect d w = (Ok [], d, w)) /\
  detect_repeatedly d ws = (map (fun _ => Ok []) ws, d) /\
  last_detection_time (base (detect_repeatedly d ws).2) =
    last_detection_time (base d) /\
  (forall f f', d = AFile f -> (detect_repeatedly d ws).2 = AFile f' ->
                _file_cache f' = _file_cache f).
Proof.
  intros Hb He.
  assert (Hone : forall w, detect d w = (Ok [], d, w)).
  { intros w. apply detect_disabled; assumption. }
  assert (Hall : detect_repeatedly d ws = (map (fun _ => Ok []) ws, d)).
  { induction ws as [|w ws IH]; simpl.
    - reflexivity.
    - rewrite Hone, IH. reflexivity. }
  split; [exact Hone|]. split; [exact Hall|]. rewrite Hall. simpl.
  split; [reflexivity|].
  intros f f' -> [= ->]. reflexivity.
Qed.

Lemma disabled_detect_changes_nothing_witness :
  detect_repeatedly
    (disable (AFile demo_detector))
    [demo_world; demo_world_new_file; demo_world_later] =
  ([Ok []; Ok []; Ok []], disable (AFile demo_detector)).
Proof.
  apply (disabled_detect_changes_nothing (disable (AFile demo_detector))
           [demo_world; demo_world_new_file; demo_world_later]);
    reflexivity.
Defined.

(** C7. An enabled FileDetector or ProcessDetector: a call of [detect()]
    returns, reads the clock once, and leaves [last_detection_time] at the
    time read; this also where the call returns no event, as it does on a
    FileDetector whose cache agrees on every file observed (none is, where
    no watch path exists). *)
Theorem enabled_detect_records_time (d : AnyDetector) (w : World) :
  builtin d = true ->
  is_enabled d = true ->
  exists evs d' w',
    detect d w = (Ok evs, d', w') /\
    last_detection_time (base d') = Some (clock w (reads w)) /\
    reads w' = Datatypes.S (reads w) /\
    clock w' = clock w /\
    (forall f, d = AFile f ->
       (forall p, In p (observed (fs w) (watch_paths f)) ->
                  cache_agrees (fs w) (_file_cache f) p) ->
       evs = []).
Proof.
  destruct d as [f|p|c]; simpl; [| |discriminate]; intros _ He.
  - flag_of He.
    rewrite FileDetector_detect_enabled by exact He. simpl.
    eexists _, _, _. split; [reflexivity|]. simpl.
    repeat split. intros f0 [= <-] Hagree.
    rewrite scan_quiet by exact Hagree. reflexivity.
  - flag_of He.
    unfold ProcessDetector_detect. rewrite He. simpl.
    eexists _, _, _. split; [reflexivity|]. simpl.
    repeat split. intros f0 [=].
Qed.

Lemma enabled_detect_records_time_witness :
  exists evs d' w',
    detect (AFile (set_watch_paths ["missing"] demo_detector)) demo_world_later
      = (Ok evs, d', w') /\
    last_detection_time (base d') = Some 107%Z /\
    reads w' = 8 /\
    evs = [].
Proof.
  destruct (enabled_detect_records_time
              (AFile (set_watch_paths ["missing"] demo_detector))
              demo_world_later eq_refl eq_refl)
    as (evs & d' & w' & Hrun & Htime & Hreads & _ & Hnone).
  exists evs, d', w'. split; [exact Hrun|]. split; [exact Htime|].
  split; [exact Hreads|].
  apply (Hnone _ eq_refl). intros p Hp. vm_compute in Hp. destruct Hp.
Defined.

Lemma observed_filter_existing fs paths :
  observed fs (filter (fun p => os_path_exists fs p = true) paths) =
  observed fs paths.
Proof.
  unfold observed. induction paths as [|p paths IH]; simpl.
  - reflexivity.
  - rewrite filter_cons. destruct (decide (os_path_exists fs p = true)) as [He|He].
    + simpl. rewrite IH. reflexivity.
    + rewrite IH. unfold observed_under at 2.
      apply not_true_is_false in He. rewrite He. reflexivity.
Qed.

Lemma observed_none_exist fs paths :
  (forall p, In p paths -> os_path_exists fs p = false) ->
  observed fs paths = [].
Proof.
  unfold observed. induction paths as [|p paths IH]; intros H; simpl.
  - reflexivity.
  - rewrite IH by (intros q Hq; apply H; right; exact Hq).
    unfold observed_under. rewrite H by (left; reflexivity). reflexivity.
Qed.

Lemma FileDetector_detect_none_exist self w :
  (forall p, In p (watch_paths self) -> os_path_exists (fs w) p = false) ->
  (FileDetector_detect self w).1.1 = Ok [].
Proof.
  intros H. apply FileDetector_detect_quiet.
  rewrite observed_none_exist by exact H. intros p [].
Qed.

(** C9. On a FileDetector, no call of [detect()] raises, whatever the
    watch paths and however many calls are made; a call made while none of
    the watch paths exists returns no event; and in every call the watch
    paths that do not exist add nothing: the events returned and the cache
    left are those of the detector watching only the paths that exist. *)
Theorem missing_watch_paths_are_skipped (self : FileDetector)
    (ws : list World) :
  Forall (fun r => is_ok r = true) (detect_repeatedly (AFile self) ws).1 /\
  ((forall w p, In w ws -> In p (watch_paths self) ->
                os_path_exists (fs w) p = false) ->
   (detect_repeatedly (AFile self) ws).1 = map (fun _ => Ok []) ws) /\
  (forall w,
     let existing :=
       filter (fun p => os_path_exists (fs w) p = true) (watch_paths self) in
     (FileDetector_detect self w).1.1 =
       (FileDetector_detect (set_watch_paths existing self) w).1.1 /\
     _file_cache (FileDetector_detect self w).1.2 =
       _file_cache (FileDetector_detect (set_watch_paths existing self) w).1.2).
Proof.
  split; [|split].
  - revert self. induction ws as [|w ws IH]; intros self; simpl.
    + constructor.
    + destruct (FileDetector_detect_returns self w) as [evs Hevs].
      destruct (FileDetector_detect self w) as [[r self'] w'] eqn:E.
      simpl in Hevs. subst r.
      specialize (IH self').
      destruct (detect_repeatedly (AFile self') ws) as [rs d'']. simpl in *.
      constructor; [reflexivity | exact IH].
  - revert self. induction ws as [|w ws IH]; intros self Hmissing; simpl.
    + reflexivity.
    + pose proof (FileDetector_detect_none_exist self w) as Hnone.
      pose proof (FileDetector_detect_watch_paths self w) as Hpaths.
      destruct (FileDetector_detect self w) as [[r self'] w'] eqn:E.
      simpl in Hnone, Hpaths.
      rewrite Hnone by (intros p Hp; apply Hmissing; [left; reflexivity|exact Hp]).
      specialize (IH self').
      destruct (detect_repeatedly (AFile self') ws) as [rs d'']. simpl in *.
      rewrite IH; [reflexivity|].
      intros w0 p Hw0 Hp. rewrite Hpaths in Hp.
      apply Hmissing; [right; exact Hw0 | exact Hp].
  - intros w existing. subst existing.
    destruct (enabled (f_base self)) eqn:He.
    + rewrite !FileDetector_detect_enabled by exact He. simpl.
      rewrite observed_filter_existing. split; reflexivity.
    + rewrite !FileDetector_detect_disabled by exact He. split; reflexivity.
Qed.

Lemma missing_watch_paths_are_skipped_witness :
  (detect_repeatedly (AFile (set_watch_paths ["missing"; "gone"] demo_detector))
     [demo_world; demo_world_new_file; demo_world_later]).1 =
  [Ok []; Ok []; Ok []].
Proof.
  apply (missing_watch_paths_are_skipped
           (set_watch_paths ["missing"; "gone"] demo_detector)
           [demo_world; demo_world_new_file; demo_world_later]).
  intros w p Hw Hp.
  destruct Hw as [<-|[<-|[<-|[]]]]; destruct Hp as [<-|[<-|[]]]; reflexivity.
Defined.

(** ** The coordinator *)

(** What a detector adds does not depend on what was collected before. *)
Lemma run_detector_acc d acc w :
  exists evs d' w',
    run_detector d [] w = (Ok evs, d', w') /\
    run_detector d acc w = (Ok (acc ++ evs), d', w').
Proof.
  unfold run_detector. destruct (is_enabled d).
  - destruct (detect d w) as [[[evs|e] d'] w']; simpl.
    + eexists _, _, _. split; reflexivity.
    + eexists _, _, _. split; reflexivity.
  - eexists _, _, _. split; [reflexivity|]. rewrite app_nil_r. reflexivity.
Qed.

Lemma run_detectors_acc ds acc w :
  exists evs ds' w',
    run_detectors ds [] w = (Ok evs, ds', w') /\
    run_detectors ds acc w = (Ok (acc ++ evs), ds', w').
Proof.
  revert acc w. induction ds as [|[key d] ds IH]; intros acc w; simpl.
  - eexists _, _, _. split; [reflexivity|]. rewrite app_nil_r. reflexivity.
  - destruct (run_detector_acc d acc w) as (evs & d' & w' & H0 & Hacc).
    rewrite H0, Hacc.
    destruct (IH evs w') as (evs1 & ds1 & w1 & H1 & H1').
    destruct (IH (acc ++ evs) w') as (evs2 & ds2 & w2 & H2 & H2').
    rewrite H1 in H2. injection H2 as <- <- <-.
    rewrite H1', H2'. eexists _, _, _. split; [reflexivity|].
    rewrite app_assoc. reflexivity.
Qed.

Lemma run_detectors_app ds1 ds2 w evs1 ds1' w1 evs2 ds2' w2 :
  run_detectors ds1 [] w = (Ok evs1, ds1', w1) ->
  run_detectors ds2 [] w1 = (Ok evs2, ds2', w2) ->
  run_detectors (ds1 ++ ds2) [] w = (Ok (evs1 ++ evs2), ds1' ++ ds2', w2).
Proof.
  revert w evs1 ds1' w1. induction ds1 as [|[key d] ds1 IH];
    intros w evs1 ds1' w1; simpl.
  - intros [= <- <- <-]. exact id.
  - destruct (run_detector_acc d [] w) as (evs & d' & w' & H0 & _).
    rewrite H0.
    destruct (run_detectors_acc ds1 evs w') as (r & dsr & wr & Hr & Hacc).
    rewrite Hacc. intros [= <- <- <-] H2.
    destruct (run_detectors_acc (ds1 ++ ds2) evs w')
      as (r' & dsr' & wr' & Hr' & Hacc').
    rewrite Hacc'. rewrite (IH _ _ _ _ Hr H2) in Hr'.
    injection Hr' as <- <- <-. rewrite app_assoc. reflexivity.
Qed.

Lemma run_all_detections_of self w evs ds w' :
  run_detectors (detectors self) [] w = (Ok evs, ds, w') ->
  Detector_run_all_detections self w =
  (Ok evs, {| detectors := ds; results := results self ++ evs |}, w').
Proof. intros H. unfold Detector_run_all_detections. rewrite H. reflexivity. Qed.

Lemma run_all_detections_returns self w :
  exists all_results ds w',
    Detector_run_all_detections self w = (Ok all_results, ds, w').
Proof.
  destruct (run_detectors_acc (detectors self) [] w) as (evs & ds & w' & H & _).
  eexists _, _, _. apply run_all_detections_of, H.
Qed.

(** C1. [run_all_detections()] returns, whatever the detectors do. Where
    an enabled detector's [detect()] raises [e], the batch returned is what
    the detectors before it collected, then exactly one event, then what
    the detectors after it collect, run in turn from the world the failing
    call left. That event is a dict of four fields: its [type] is
    [detection_error], its [detector] the detector's name, its [error]
    [str(e)], its [timestamp] the time read in the handler. Where
    [detect()] returns events, these stand in that place. *)
Theorem run_all_isolates_failures (self : Detector) (w : World) :
  (exists all_results ds w',
     Detector_run_all_detections self w =
     (Ok all_results,
      {| detectors := ds; results := results self ++ all_results |}, w')) /\
  (forall before key d after r1 ds1 w1,
     detectors self = before ++ (key, d) :: after ->
     run_detectors before [] w = (Ok r1, ds1, w1) ->
     is_enabled d = true ->
     (forall e d' w2,
        detect d w1 = (Raise e, d', w2) ->
        exists err r2 ds2 w3,
          run_detectors after [] (time_time w2).2 = (Ok r2, ds2, w3) /\
          (Detector_run_all_detections self w).1.1 =
            Ok (r1 ++ [err] ++ r2) /\
          err = detection_error_event (name (base d')) (exc_str e)
                  (clock w2 (reads w2)) /\
          dict_keys err = ["type"; "detector"; "error"; "timestamp"] /\
          event_type err = Some (PStr "detection_error") /\
          dict_get err "detector" = Some (PStr (name (base d'))) /\
          dict_get err "error" = Some (PStr (exc_str e)) /\
          dict_get err "timestamp" = Some (PFloat (clock w2 (reads w2)))) /\
     (forall evs d' w2,
        detect d w1 = (Ok evs, d', w2) ->
        exists r2 ds2 w3,
          run_detectors after [] w2 = (Ok r2, ds2, w3) /\
          (Detector_run_all_detections self w).1.1 = Ok (r1 ++ evs ++ r2))).
Proof.
  split.
  - destruct (run_detectors_acc (detectors self) [] w)
      as (evs & ds & w' & H & _).
    exists evs, ds, w'. apply run_all_detections_of, H.
  - intros before key d after r1 ds1 w1 Hsplit Hbefore Hen. split.
    + intros e d' w2 Hd.
      destruct (run_detectors_acc after [] (time_time w2).2)
        as (r2 & ds2 & w3 & Hafter & _).
      exists (detection_error_event (name (base d')) (exc_str e)
                (clock w2 (reads w2))), r2, ds2, w3.
      split; [exact Hafter|].
      assert (Hone : run_detectors [(key, d)] [] w1 =
        (Ok [detection_error_event (name (base d')) (exc_str e)
               (clock w2 (reads w2))], [(key, d')], (time_time w2).2)).
      { simpl. unfold run_detector. rewrite Hen, Hd. reflexivity. }
      pose proof (run_detectors_app _ _ _ _ _ _ _ _ _ Hone Hafter) as Hrest.
      pose proof (run_detectors_app _ _ _ _ _ _ _ _ _ Hbefore Hrest) as Hall.
      simpl in Hall. rewrite <- Hsplit in Hall.
      rewrite (run_all_detections_of _ _ _ _ _ Hall).
      repeat split.
    + intros evs d' w2 Hd.
      destruct (run_detectors_acc after [] w2) as (r2 & ds2 & w3 & Hafter & _).
      exists r2, ds2, w3. split; [exact Hafter|].
      assert (Hone : run_detectors [(key, d)] [] w1 =
        (Ok evs, [(key, d')], w2)).
      { simpl. unfold run_detector. rewrite Hen, Hd. reflexivity. }
      pose proof (run_detectors_app _ _ _ _ _ _ _ _ _ Hone Hafter) as Hrest.
      pose proof (run_detectors_app _ _ _ _ _ _ _ _ _ Hbefore Hrest) as Hall.
      simpl in Hall. rewrite <- Hsplit in Hall.
      rewrite (run_all_detections_of _ _ _ _ _ Hall). reflexivity.
Qed.

Lemma run_all_isolates_failures_witness :
  (Detector_run_all_detections demo_coordinator demo_world).1.1 =
  Ok [[("type", PStr "detection_error");
       ("detector", PStr "error_detector");
       ("error", PStr "Test error");
       ("timestamp", PFloat 100)];
      [("type", PStr "process_check");
       ("timestamp", PFloat 101);
       ("message", PStr "Process monitoring active")]].
Proof.
  destruct (run_all_isolates_failures demo_coordinator demo_world)
    as [_ Hsplit].
  destruct (Hsplit [] "error_detector" demo_failing
              [("process_detector", AProcess ProcessDetector_init)]
              [] [] demo_world eq_refl eq_refl eq_refl) as [Hraise _].
  destruct (Hraise (mkException "Exception" "Test error") demo_failing
              demo_world eq_refl)
    as (err & r2 & ds2 & w3 & Hafter & Hall & Herr & _).
  vm_compute in Hafter. injection Hafter as <- <- <-.
  rewrite Hall, Herr. reflexivity.
Defined.

(** ** The history *)

Lemma run_all_detections_history self w :
  exists evs,
    (Detector_run_all_detections self w).1.1 = Ok evs /\
    Detector_get_detection_history (Detector_run_all_detections self w).1.2 =
    Detector_get_detection_history self ++ evs.
Proof.
  destruct (run_detectors_acc (detectors self) [] w) as (evs & ds & w' & H & _).
  rewrite (run_all_detections_of _ _ _ _ _ H). exists evs.
  split; reflexivity.
Qed.

(** C3. Every call of [run_all_detections()] returns a batch and appends
    exactly that batch to the history; after the calls of [run_cycles] the
    history is the history before followed by the batches returned, in
    order, so after [clear_history()] it is the batches alone; and
    [clear_history()] leaves the history empty and the detectors as they
    were. *)
Theorem history_is_the_batches (self : Detector) (ws : list World) :
  (forall w, exists evs,
     (Detector_run_all_detections self w).1.1 = Ok evs /\
     Detector_get_detection_history (Detector_run_all_detections self w).1.2 =
     Detector_get_detection_history self ++ evs) /\
  Forall (fun r => is_ok r = true) (run_cycles self ws).1 /\
  List.length (run_cycles self ws).1 = List.length ws /\
  Detector_get_detection_history (run_cycles self ws).2 =
    Detector_get_detection_history self ++
    concat (map batch (run_cycles self ws).1) /\
  Detector_get_detection_history
    (run_cycles (Detector_clear_history self) ws).2 =
    concat (map batch (run_cycles (Detector_clear_history self) ws).1) /\
  Detector_get_detection_history (Detector_clear_history self) = [] /\
  detectors (Detector_clear_history self) = detectors self.
Proof.
  assert (Hcycles : forall ws self,
    Forall (fun r => is_ok r = true) (run_cycles self ws).1 /\
    List.length (run_cycles self ws).1 = List.length ws /\
    Detector_get_detection_history (run_cycles self ws).2 =
      Detector_get_detection_history self ++
      concat (map batch (run_cycles self ws).1)).
  { clear. induction ws as [|w ws IH]; intros self; simpl.
    - split; [constructor|]. split; [reflexivity|].
      rewrite app_nil_r. reflexivity.
    - destruct (run_all_detections_history self w) as (evs & Hevs & Hhist).
      destruct (Detector_run_all_detections self w) as [[r self'] w'].
      simpl in Hevs, Hhist. subst r.
      destruct (IH self') as (Hok & Hlen & Hrest).
      destruct (run_cycles self' ws) as [rs self'']. simpl in *.
      split; [constructor; [reflexivity|exact Hok]|].
      split; [rewrite Hlen; reflexivity|].
      rewrite Hrest, Hhist, app_assoc. reflexivity. }
  split; [intros w; apply run_all_detections_history|].
  destruct (Hcycles ws self) as (Hok & Hlen & Hhist).
  split; [exact Hok|]. split; [exact Hlen|]. split; [exact Hhist|].
  destruct (Hcycles ws (Detector_clear_history self)) as (_ & _ & Hclear).
  split; [exact Hclear|]. split; reflexivity.
Qed.

(** ** The agent *)

Lemma notify_loop results a callbacks h :
  for_each callbacks (fun callback =>
    try_except (call_callback callback results)
      (fun e => logger "ERROR" ("Error in callback: " +:+ exc_str e))) (a, h) =
  (Ok tt, (a, notified callbacks results h)).
Proof.
  revert h. induction callbacks as [|cb callbacks IH]; intros h.
  - simpl. unfold ret, notified, add_log, add_invoked. simpl.
    rewrite !app_nil_r. destruct h; reflexivity.
  - simpl. unfold bind, try_except, call_callback.
    destruct (call h cb results) as [[]|e] eqn:E.
    + rewrite IH. unfold notified, callback_errors. simpl. rewrite E. simpl.
      unfold add_log, add_invoked. simpl. rewrite <- app_assoc. reflexivity.
    + unfold logger, modify. rewrite IH.
      unfold notified, callback_errors. simpl. rewrite E. simpl.
      unfold add_log, add_invoked. simpl. rewrite <- !app_assoc. reflexivity.
Qed.

Lemma notify_callbacks_notifies results a h :
  DetectionAgent_notify_callbacks results (a, h) =
  (Ok tt, (a, notified (_callbacks a) results h)).
Proof.
  unfold DetectionAgent_notify_callbacks, bind, gets. apply notify_loop.
Qed.

(** C4. [run_single_detection()] returns the batch the coordinator
    returned, whatever the callbacks do; where the batch is not empty,
    every registered callback has been called once with that batch, in the
    order of registration, a callback that raised included and the ones
    after it too; where it is empty, no callback has been called. *)
Theorem callbacks_notified_in_order (a : DetectionAgent) (h : Host) :
  exists results d w h',
    Detector_run_all_detections (detector a) (world h) = (Ok results, d, w) /\
    DetectionAgent_run_single_detection (a, h) =
      (Ok results, (set_detector d a, h')) /\
    world h' = w /\
    invoked h' =
      invoked h ++
      (if bool_decide (results <> [])
       then map (fun callback => (callback, results)) (_callbacks a)
       else []) /\
    log h' =
      log h ++ [("DEBUG", "Running single detection cycle")] ++
      (if bool_decide (results <> [])
       then ("INFO", "Detected " +:+ pretty (length results) +:+ " events")
            :: callback_errors (call h) (_callbacks a) results
       else []).
Proof.
  destruct (run_all_detections_returns (detector a) (world h))
    as (results & d & w & Hrun).
  exists results, d, w.
  assert (Hcycle : DetectionAgent_run_single_detection (a, h) =
    (Ok results,
     (set_detector d a,
      if bool_decide (results <> [])
      then notified (_callbacks a) results
             (add_log [("INFO", "Detected " +:+ pretty (length results)
                                 +:+ " events")]
                (set_world w
                   (add_log [("DEBUG", "Running single detection cycle")] h)))
      else set_world w
             (add_log [("DEBUG", "Running single detection cycle")] h)))).
  { unfold DetectionAgent_run_single_detection, bind, logger, modify,
      self_detector_run_all_detections, ret.
    cbn [world add_log]. rewrite Hrun. simpl.
    destruct (bool_decide (results <> [])).
    - rewrite notify_callbacks_notifies. reflexivity.
    - reflexivity. }
  rewrite Hcycle. eexists. split; [exact Hrun|]. split; [reflexivity|].
  destruct (bool_decide (results <> [])); simpl.
  - split; [reflexivity|]. split; [reflexivity|].
    rewrite <- !app_assoc. reflexivity.
  - split; [reflexivity|]. split; rewrite ?app_nil_r; reflexivity.
Qed.

(** C8. [start()] on an agent that is running changes nothing but the log:
    the flag stays set, the thread held is the same, and no thread is
    started; two calls of [start()] on an agent that is not running start
    one thread, and leave the flag set; [stop()] on an agent that is not
    running returns, changes nothing but the log, and leaves the flag
    clear. *)
Theorem start_running_and_stop_idle_change_nothing
    (running idle : DetectionAgent) (h : Host) :
  _running running = true ->
  _running idle = false ->
  (exists h',
     DetectionAgent_start (running, h) = (Ok tt, (running, h')) /\
     DetectionAgent_is_running running = true /\
     started h' = started h /\ world h' = world h /\
     invoked h' = invoked h) /\
  (exists idle2 h2,
     (DetectionAgent_start ;;; DetectionAgent_start) (idle, h) =
       (Ok tt, (idle2, h2)) /\
     DetectionAgent_is_running idle2 = true /\
     _thread idle2 = Some (length (started h)) /\
     started h2 = started h ++ [length (started h)]) /\
  (exists h',
     DetectionAgent_stop (idle, h) = (Ok tt, (idle, h')) /\
     DetectionAgent_is_running idle = false /\
     started h' = started h /\ world h' = world h /\
     invoked h' = invoked h).
Proof.
  intros Hrun Hidle. split; [|split].
  - exists (add_log [("WARNING", "Agent is already running")] h).
    unfold DetectionAgent_start, bind, gets. rewrite Hrun.
    repeat split. exact Hrun.
  - unfold DetectionAgent_start, bind, gets, modify, logger. rewrite Hidle.
    simpl. eexists _, _. split; [reflexivity|]. repeat split.
  - exists (add_log [("WARNING", "Agent is not running")] h).
    unfold DetectionAgent_stop, bind, gets. rewrite Hidle.
    repeat split. exact Hidle.
Qed.

Lemma start_running_and_stop_idle_change_nothing_witness :
  (exists h',
     DetectionAgent_start (demo_agent_running, demo_host) =
       (Ok tt, (demo_agent_running, h')) /\
     started h' = started demo_host) /\
  (exists h',
     DetectionAgent_stop (demo_agent, demo_host) = (Ok tt, (demo_agent, h')) /\
     DetectionAgent_is_running demo_agent = false).
Proof.
  destruct (start_running_and_stop_idle_change_nothing demo_agent_running
              demo_agent demo_host eq_refl eq_refl)
    as ((h1 & Hstart & _ & Hsame & _) & _ & (h2 & Hstop & Hidle & _)).
  split.
  - exists h1. split; [exact Hstart | exact Hsame].
  - exists h2. split; [exact Hstop | exact Hidle].
Defined.

Lemma listed_default_exists fs :
  (forall p, In p (listed fs ["."]) -> os_path_exists fs p = true) ->
  exists d, FileDetector_init None fs = Ok d.
Proof.
  intros Hall. unfold FileDetector_init.
  destruct (initialize_cache_total fs ["."] ∅ Hall) as [c Hc].
  rewrite Hc. eexists. reflexivity.
Qed.

(** C10. An agent constructed with the default configuration holds
    exactly two detectors, a FileDetector under [file_detector] and a
    ProcessDetector under [process_detector], in this order: the tag
    [network] adds none. The construction returns where every file listed
    under the current directory exists. *)
Theorem default_agent_has_two_detectors (h : Host) :
  (forall a h',
     DetectionAgent_init None h = (Ok a, h') ->
     dict_keys (detectors (detector a)) =
       ["file_detector"; "process_detector"] /\
     exists f,
       detectors (detector a) =
         [("file_detector", AFile f);
          ("process_detector", AProcess ProcessDetector_init)] /\
       FileDetector_init None (fs (world h)) = Ok f) /\
  ((forall p, In p (listed (fs (world h)) ["."]) ->
              os_path_exists (fs (world h)) p = true) ->
   exists a h', DetectionAgent_init None h = (Ok a, h')).
Proof.
  assert (Hinit : forall f, FileDetector_init None (fs (world h)) = Ok f ->
    DetectionAgent_init None h =
    (Ok {| config := Config_init;
           detector :=
             {| detectors := [(name (f_base f), AFile f);
                              ("process_detector",
                               AProcess ProcessDetector_init)];
                results := [] |};
           _running := false; _thread := None; _callbacks := [] |},
     add_log [("INFO", "File detector initialized");
              ("INFO", "Process detector initialized")] h)).
  { intros f Hf. unfold DetectionAgent_init. simpl.
    unfold DetectionAgent_initialize_detectors, bind, gets, lift, modify,
      logger. simpl. rewrite Hf. simpl.
    apply FileDetector_init_ok in Hf as (_ & Hname & _).
    unfold set_detector, Detector_add_detector, add_log. simpl.
    rewrite Hname. simpl. rewrite <- app_assoc. reflexivity. }
  split.
  - intros a h' Ha.
    destruct (FileDetector_init None (fs (world h))) as [f|e] eqn:Hf.
    + rewrite (Hinit f eq_refl) in Ha. injection Ha as <- <-.
      apply FileDetector_init_ok in Hf as (_ & Hname & _). simpl.
      rewrite Hname. split; [reflexivity|]. exists f. split; reflexivity.
    + exfalso. revert Ha. unfold DetectionAgent_init. simpl.
      unfold DetectionAgent_initialize_detectors, bind, gets, lift. simpl.
      rewrite Hf. discriminate.
  - intros Hall. destruct (listed_default_exists _ Hall) as [f Hf].
    rewrite (Hinit f Hf). eexists _, _. reflexivity.
Qed.

Lemma default_agent_has_two_detectors_witness :
  exists a h',
    DetectionAgent_init None demo_host = (Ok a, h') /\
    dict_keys (detectors (detector a)) =
      ["file_detector"; "process_detector"].
Proof.
  destruct (default_agent_has_two_detectors demo_host) as [Hkeys Hreturns].
  destruct Hreturns as (a & h' & Ha).
  - intros p Hp. vm_compute in Hp. destruct Hp as [<-|[]]. reflexivity.
  - exists a, h'. split; [exact Ha|]. apply (Hkeys a h' Ha).
Defined.

(** ** Runs of the model *)

Example os_path_join_runs :
  os_path_join "d" "a.txt" = "d/a.txt" /\
  os_path_join "d/" "a.txt" = "d/a.txt" /\
  os_path_join "" "a.txt" = "a.txt" /\
  os_path_join "d" "/etc/passwd" = "/etc/passwd".
Proof. repeat split. Qed.

Example py_in_runs :
  py_in "file" (CList [CStr "file"; CStr "network"; CStr "process"]) = Ok true /\
  py_in "network" (CList [CStr "file"; CStr "process"]) = Ok false /\
  py_in "file" (CStr "profile") = Ok true /\
  is_ok (py_in "file" (CInt 3)) = false.
Proof. repeat split. Qed.

(** A detector with an empty cache reports every file it meets as created;
    with a stale entry, as modified. *)
Example first_sight_is_created :
  (FileDetector_detect demo_detector demo_world).1.1 =
  Ok [file_change_event "d/a.txt" 100 "created";
      file_change_event "d/b.txt" 100 "created"].
Proof. vm_compute. reflexivity. Qed.

Example stale_entry_is_modified :
  (FileDetector_detect
     {| f_base := BaseDetector_init "file_detector";
        watch_paths := ["d/a.txt"];
        _file_cache := {["d/a.txt" := 9%Z]} |}
     demo_world).1.1 =
  Ok [file_change_event "d/a.txt" 100 "modified"].
Proof. vm_compute. reflexivity. Qed.

(** [os.walk] lists an entry [os.stat] fails on (a dangling link): the
    constructor raises, [detect] skips the entry. *)
Example dangling_entry :
  let fs := {| os_stat := dict_get [("d", mkStat Directory 5)];
               os_walk := fun _ => [("d", [], ["dangling"])] |} in
  is_ok (FileDetector_init (Some ["d"]) fs) = false /\
  (FileDetector_detect (set_watch_paths ["d"] demo_detector)
     {| fs := fs; clock := demo_clock; reads := 0 |}).1.1 = Ok [].
Proof. vm_compute. split; reflexivity. Qed.

(** One cycle of the demo agent: both callbacks are called with the batch
    of two events, the failure of the first is logged. *)
Example single_detection_runs :
  let '(r, (a, h)) := DetectionAgent_run_single_detection
                        (demo_agent, demo_host) in
  r = Ok [detection_error_event "error_detector" "Test error" 100;
          process_check_event 101] /\
  map fst (invoked h) = [1; 2] /\
  log h = [("DEBUG", "Running single detection cycle");
           ("INFO", "Detected 2 events");
           ("ERROR", "Error in callback: Callback error")] /\
  DetectionAgent_get_detection_history a = batch r.
Proof. vm_compute. repeat split. Qed.

(** The demo script adds a second FileDetector: it has the name of the
    first and takes its place. *)
Example same_name_replaces :
  dict_keys (detectors
    (Detector_add_detector
       (Detector_add_detector
          (Detector_add_detector Detector_init (AFile demo_detector))
          (AProcess ProcessDetector_init))
       (AFile (set_watch_paths ["tmp"] demo_detector)))) =
  ["file_detector"; "process_detector"].
Proof. reflexivity. Qed.

(** ** The dict of detectors *)

Section Dicts.
Context {V : Type}.
Implicit Types (d : list (string * V)) (k : string) (v : V).

Lemma dict_get_set_eq d k v : dict_get (dict_set d k v) k = Some v.
Proof.
  induction d as [|[k0 v0] d IH]; simpl.
  - rewrite decide_True by reflexivity. reflexivity.
  - destruct (decide (k0 = k)) as [->|Hne]; simpl.
    + rewrite decide_True by reflexivity. reflexivity.
    + rewrite decide_False by exact Hne. exact IH.
Qed.

Lemma dict_get_set_ne d k k' v :
  k <> k' -> dict_get (dict_set d k v) k' = dict_get d k'.
Proof.
  intros Hne. induction d as [|[k0 v0] d IH]; simpl.
  - rewrite decide_False by exact Hne. reflexivity.
  - destruct (decide (k0 = k)) as [->|Hne0]; simpl.
    + rewrite !decide_False by exact Hne. reflexivity.
    + destruct (decide (k0 = k')); [reflexivity | exact IH].
Qed.

Lemma dict_get_None d k : dict_get d k = None <-> ~ In k (dict_keys d).
Proof.
  unfold dict_keys. induction d as [|[k0 v0] d IH]; simpl.
  - split; [intros _ [] | reflexivity].
  - destruct (decide (k0 = k)) as [->|Hne].
    + split; [discriminate | intros H; contradiction H; left; reflexivity].
    + rewrite IH. split.
      * intros H [Heq|Hin]; [exact (Hne Heq) | exact (H Hin)].
      * intros H Hin. apply H. right; exact Hin.
Qed.

Lemma dict_keys_set d k v :
  dict_keys (dict_set d k v) =
  match dict_get d k with
  | Some _ => dict_keys d
  | None => dict_keys d ++ [k]
  end.
Proof.
  unfold dict_keys. induction d as [|[k0 v0] d IH]; [reflexivity|].
  cbn [dict_set dict_get].
  destruct (decide (k0 = k)) as [->|Hne]; [reflexivity|].
  rewrite !fmap_cons, IH. destruct (dict_get d k); reflexivity.
Qed.

Lemma dict_set_NoDup d k v :
  NoDup (dict_keys d) -> NoDup (dict_keys (dict_set d k v)).
Proof.
  intros Hnd. rewrite dict_keys_set.
  destruct (dict_get d k) eqn:E; [exact Hnd|].
  apply NoDup_app. split; [exact Hnd|]. split.
  - intros x Hx Hk. apply list_elem_of_singleton in Hk as ->.
    apply dict_get_None in E. apply E, list_elem_of_In, Hx.
  - apply NoDup_singleton.
Qed.

Lemma dict_keys_del_subset d k k' :
  In k' (dict_keys (dict_del d k)) -> In k' (dict_keys d).
Proof.
  unfold dict_keys. induction d as [|[k0 v0] d IH]; simpl.
  - exact id.
  - destruct (decide (k0 = k)); simpl.
    + intros H. right; exact H.
    + intros [H|H]; [left; exact H | right; apply IH, H].
Qed.

Lemma dict_del_NoDup d k :
  NoDup (dict_keys d) -> NoDup (dict_keys (dict_del d k)).
Proof.
  unfold dict_keys. induction d as [|[k0 v0] d IH]; simpl; intros Hnd.
  - exact Hnd.
  - apply NoDup_cons in Hnd as [Hnotin Hnd].
    destruct (decide (k0 = k)); simpl; [exact Hnd|].
    apply NoDup_cons. split; [|apply IH, Hnd].
    intros Hin. apply Hnotin, list_elem_of_In.
    apply (dict_keys_del_subset d k), list_elem_of_In, Hin.
Qed.

Lemma dict_get_del_ne d k k' :
  k <> k' -> dict_get (dict_del d k) k' = dict_get d k'.
Proof.
  intros Hne. induction d as [|[k0 v0] d IH]; simpl.
  - reflexivity.
  - destruct (decide (k0 = k)) as [->|Hne0]; simpl.
    + rewrite decide_False by exact Hne. reflexivity.
    + destruct (decide (k0 = k')); [reflexivity | exact IH].
Qed.

Lemma dict_get_del_eq d k :
  NoDup (dict_keys d) -> dict_get (dict_del d k) k = None.
Proof.
  unfold dict_keys. induction d as [|[k0 v0] d IH]; simpl; intros Hnd.
  - reflexivity.
  - apply NoDup_cons in Hnd as [Hnotin Hnd].
    destruct (decide (k0 = k)) as [->|Hne]; simpl.
    + apply dict_get_None. intros Hin. apply Hnotin, list_elem_of_In, Hin.
    + rewrite decide_False by exact Hne. apply IH, Hnd.
Qed.
End Dicts.

(** X1. A detector added is the one [get_detector] returns under its name,
    whatever was registered under that name before; every other name is
    answered as before, and the history is untouched. *)
Theorem add_detector_then_get (self : Detector) (d : AnyDetector)
    (other : string) :
  Detector_get_detector (Detector_add_detector self d) (name (base d)) =
    Some d /\
  (other <> name (base d) ->
   Detector_get_detector (Detector_add_detector self d) other =
   Detector_get_detector self other) /\
  results (Detector_add_detector self d) = results self.
Proof.
  unfold Detector_get_detector, Detector_add_detector. simpl.
  split; [apply dict_get_set_eq|]. split; [|reflexivity].
  intros Hne. apply dict_get_set_ne. intros Heq. apply Hne. symmetry.
  exact Heq.
Qed.

Lemma add_detector_then_get_witness :
  Detector_get_detector
    (Detector_add_detector demo_coordinator (AFile demo_detector))
    "process_detector" =
  Detector_get_detector demo_coordinator "process_detector".
Proof.
  apply (add_detector_then_get demo_coordinator (AFile demo_detector)
           "process_detector").
  discriminate.
Defined.

(** X2. [add_detector] under a name already registered replaces the
    detector where it stands: the names and their order are as before.
    Under a new name the detector goes last. Either way no name occurs
    twice afterwards if none did before. *)
Theorem add_detector_keeps_order (self : Detector) (d : AnyDetector) :
  dict_keys (detectors (Detector_add_detector self d)) =
    (if bool_decide (is_Some (Detector_get_detector self (name (base d))))
     then dict_keys (detectors self)
     else dict_keys (detectors self) ++ [name (base d)]) /\
  (NoDup (dict_keys (detectors self)) ->
   NoDup (dict_keys (detectors (Detector_add_detector self d)))).
Proof.
  unfold Detector_get_detector, Detector_add_detector. simpl. split.
  - rewrite dict_keys_set.
    destruct (dict_get (detectors self) (name (base d))); reflexivity.
  - apply dict_set_NoDup.
Qed.

Lemma add_detector_keeps_order_witness :
  NoDup (dict_keys (detectors
    (Detector_add_detector demo_coordinator (AFile demo_detector)))).
Proof.
  apply (add_detector_keeps_order demo_coordinator (AFile demo_detector)).
  apply (bool_decide_eq_true_1 _ (Decision0 := NoDup_dec _)). reflexivity.
Defined.

(** X3. [remove_detector(name)] on a dict of detectors returns [True]
    exactly when the name is registered; afterwards the name is not
    registered, every other name is answered as before, and the history is
    untouched; where it returns [False] the coordinator is as it was. *)
Theorem remove_detector_removes (self : Detector) (key other : string) :
  NoDup (dict_keys (detectors self)) ->
  let '(removed, self') := Detector_remove_detector self key in
  removed = bool_decide (is_Some (Detector_get_detector self key)) /\
  Detector_get_detector self' key = None /\
  (other <> key ->
   Detector_get_detector self' other = Detector_get_detector self other) /\
  NoDup (dict_keys (detectors self')) /\
  results self' = results self /\
  (removed = false -> self' = self).
Proof.
  intros Hnd. unfold Detector_remove_detector, Detector_get_detector.
  destruct (dict_get (detectors self) key) eqn:E; simpl.
  - split; [reflexivity|]. split; [apply dict_get_del_eq, Hnd|].
    split; [|split; [apply dict_del_NoDup, Hnd|split; [reflexivity|discriminate]]].
    intros Hne. apply dict_get_del_ne. intros Heq. apply Hne. symmetry.
    exact Heq.
  - split; [reflexivity|]. split; [exact E|].
    split; [reflexivity|]. split; [exact Hnd|]. split; reflexivity.
Qed.

Lemma remove_detector_removes_witness :
  (Detector_remove_detector demo_coordinator "error_detector").1 = true /\
  Detector_get_detector
    (Detector_remove_detector demo_coordinator "error_detector").2
    "error_detector" = None.
Proof.
  pose proof (remove_detector_removes demo_coordinator "error_detector"
                "process_detector") as H.
  destruct (Detector_remove_detector demo_coordinator "error_detector")
    as [removed self'] eqn:E.
  destruct H as (Hr & Hgone & _).
  - apply (bool_decide_eq_true_1 _ (Decision0 := NoDup_dec _)). reflexivity.
  - split; [rewrite Hr; reflexivity | exact Hgone].
Defined.

(** ** What a run of the coordinator leaves alone *)

Lemma run_detector_disabled d acc w :
  is_enabled d = false -> run_detector d acc w = (Ok acc, d, w).
Proof. intros He. unfold run_detector. rewrite He. reflexivity. Qed.

Lemma run_detectors_disabled ds acc w :
  Forall (fun kd => is_enabled kd.2 = false) ds ->
  run_detectors ds acc w = (Ok acc, ds, w).
Proof.
  revert acc w. induction ds as [|[key d] ds IH]; intros acc w Hall; simpl.
  - reflexivity.
  - apply Forall_cons in Hall as [Hd Hall]. simpl in Hd.
    rewrite (run_detector_disabled _ _ _ Hd), (IH _ _ Hall). reflexivity.
Qed.

(** X4. A coordinator none of whose detectors is enabled: a run returns
    the empty batch and changes neither the detectors, nor the history, nor
    the world; no [detect()] is called, also not that of a detector whose
    [detect()] does not look at the flag. *)
Theorem run_all_skips_disabled (self : Detector) (w : World) :
  Forall (fun kd => is_enabled kd.2 = false) (detectors self) ->
  Detector_run_all_detections self w = (Ok [], self, w).
Proof.
  intros Hall. unfold Detector_run_all_detections.
  rewrite (run_detectors_disabled _ _ _ Hall), app_nil_r.
  destruct self; reflexivity.
Qed.

Lemma run_all_skips_disabled_witness :
  let self := {| detectors := [("error_detector", disable demo_failing)];
                 results := [process_check_event 3] |} in
  Detector_run_all_detections self demo_world = (Ok [], self, demo_world).
Proof.
  apply (run_all_skips_disabled
           {| detectors := [("error_detector", disable demo_failing)];
              results := [process_check_event 3] |} demo_world).
  repeat constructor.
Defined.

(** X5. For one run, a disabled detector is as good as absent: the batch
    and the world are those of the run of the coordinator without it, the
    other detectors are left as that run leaves them, and the disabled one
    stays in its place unchanged. *)
Theorem disabled_is_as_absent (self : Detector) (w : World)
    (before after : list (string * AnyDetector)) (key : string)
    (d : AnyDetector) :
  detectors self = before ++ (key, d) :: after ->
  is_enabled d = false ->
  exists evs before' after' w',
    Detector_run_all_detections
      {| detectors := before ++ after; results := results self |} w =
    (Ok evs,
     {| detectors := before' ++ after'; results := results self ++ evs |},
     w') /\
    Detector_run_all_detections self w =
    (Ok evs,
     {| detectors := before' ++ (key, d) :: after';
        results := results self ++ evs |},
     w').
Proof.
  intros Hsplit Hd.
  destruct (run_detectors_acc before [] w) as (r1 & ds1 & w1 & H1 & _).
  destruct (run_detectors_acc after [] w1) as (r2 & ds2 & w2 & H2 & _).
  exists (r1 ++ r2), ds1, ds2, w2. split.
  - exact (run_all_detections_of
             {| detectors := before ++ after; results := results self |}
             w _ _ _ (run_detectors_app _ _ _ _ _ _ _ _ _ H1 H2)).
  - apply run_all_detections_of. rewrite Hsplit.
    assert (Hrest : run_detectors ((key, d) :: after) [] w1 =
                    (Ok r2, (key, d) :: ds2, w2)).
    { simpl. rewrite (run_detector_disabled _ _ _ Hd), H2. reflexivity. }
    apply (run_detectors_app _ _ _ _ _ _ _ _ _ H1 Hrest).
Qed.

Lemma disabled_is_as_absent_witness :
  (Detector_run_all_detections demo_coordinator_disabled demo_world).1.1 =
  Ok [process_check_event 100].
Proof.
  destruct (disabled_is_as_absent demo_coordinator_disabled demo_world []
              [("process_detector", AProcess ProcessDetector_init)]
              "error_detector" (disable demo_failing) eq_refl eq_refl)
    as (evs & before' & after' & w' & Hwithout & Hwith).
  rewrite Hwith. vm_compute in Hwithout. injection Hwithout as <- _ _ _.
  reflexivity.
Defined.

Lemma same_class_refl d : same_class d d.
Proof. destruct d; reflexivity. Qed.

Lemma detect_same_registration key d w :
  same_registration (key, d) (key, (detect d w).1.2).
Proof.
  split; [reflexivity|]. simpl.
  destruct d as [f|p|c]; simpl.
  - destruct (enabled (f_base f)) eqn:He.
    + rewrite FileDetector_detect_enabled by exact He. simpl.
      repeat split; congruence.
    + rewrite FileDetector_detect_disabled by exact He. simpl.
      repeat split; congruence.
  - unfold ProcessDetector_detect.
    destruct (enabled (p_base p)) eqn:He; simpl; repeat split; congruence.
  - unfold CustomDetector_detect.
    destruct (c_detect c (c_base c) (c_state c) w) as [[r [b st]] w'].
    simpl. split; [exact I | discriminate].
Qed.

Lemma run_detector_same_registration key d acc w :
  same_registration (key, d) (key, (run_detector d acc w).1.2).
Proof.
  unfold run_detector. destruct (is_enabled d).
  - pose proof (detect_same_registration key d w) as H.
    destruct (detect d w) as [[[evs|e] d'] w']; exact H.
  - split; [reflexivity|]. split; [apply same_class_refl|].
    intros _. split; reflexivity.
Qed.

Lemma run_detectors_same_registration ds acc w :
  Forall2 same_registration ds (run_detectors ds acc w).1.2.
Proof.
  revert acc w. induction ds as [|[key d] ds IH]; intros acc w; simpl.
  - constructor.
  - pose proof (run_detector_same_registration key d acc w) as Hd.
    destruct (run_detector_acc d acc w) as (evs & d' & w' & _ & Hacc).
    rewrite Hacc in Hd |- *. simpl in Hd.
    specialize (IH (acc ++ evs) w').
    destruct (run_detectors ds (acc ++ evs) w') as [[r ds'] w''].
    constructor; [exact Hd | exact IH].
Qed.

(** X6. A run of the coordinator registers and removes nothing: the keys of
    the dict are the same afterwards, in the same order; under each key
    stands a detector of the class that stood there (a FileDetector a
    FileDetector with the same watch paths, a ProcessDetector a
    ProcessDetector), and every FileDetector and ProcessDetector still has
    its name and its [enabled] flag. *)
Theorem run_all_keeps_registrations (self : Detector) (w : World) :
  let self' := (Detector_run_all_detections self w).1.2 in
  dict_keys (detectors self') = dict_keys (detectors self) /\
  Forall2 same_registration (detectors self) (detectors self').
Proof.
  intros self'.
  assert (H : Forall2 same_registration (detectors self) (detectors self')).
  { subst self'. unfold Detector_run_all_detections.
    pose proof (run_detectors_same_registration (detectors self) [] w) as H.
    destruct (run_detectors (detectors self) [] w) as [[[evs|e] ds] w'];
      exact H. }
  split; [|exact H]. unfold dict_keys.
  induction H as [|kd kd' ds ds' [Hk _] _ IH]; [reflexivity|].
  rewrite !fmap_cons, IH, Hk. reflexivity.
Qed.

(** ** What one scan reports and records *)

Lemma scan_step_changed fs t st p :
  file_changed (cache st) p (mtime_of fs p) = true ->
  scan_step fs t st p =
  {| cache := <[p := mtime_of fs p]> (cache st);
     detections := detections st ++ [change_event (cache st) t p] |}.
Proof. intros H. unfold scan_step, report_file. rewrite H. reflexivity. Qed.

Lemma scan_step_unchanged fs t st p :
  file_changed (cache st) p (mtime_of fs p) = false ->
  scan_step fs t st p = st.
Proof. intros H. unfold scan_step, report_file. rewrite H. reflexivity. Qed.

Lemma file_changed_agrees fs c p :
  file_changed c p (mtime_of fs p) = false <-> cache_agrees fs c p.
Proof.
  unfold file_changed, cache_agrees. destruct (c !! p) as [m|].
  - destruct (Z.eqb_spec m (mtime_of fs p)) as [->|Hne]; simpl.
    + split; reflexivity.
    + split; [discriminate|]. intros [= Heq]. contradiction.
  - split; discriminate.
Qed.

Lemma scan_step_other fs t st p q :
  p <> q -> cache (scan_step fs t st p) !! q = cache st !! q.
Proof.
  intros Hne. unfold scan_step, report_file.
  destruct (file_changed (cache st) p (mtime_of fs p)); simpl; [|reflexivity].
  apply lookup_insert_ne, Hne.
Qed.

Lemma scan_other fs t l st q :
  ~ In q l -> cache (fold_left (scan_step fs t) l st) !! q = cache st !! q.
Proof.
  revert st. induction l as [|p l IH]; intros st Hq; simpl.
  - reflexivity.
  - rewrite IH by (intros H; apply Hq; right; exact H).
    apply scan_step_other. intros ->. apply Hq. left; reflexivity.
Qed.

Lemma change_event_other c p x t q :
  p <> q -> change_event (<[p := x]> c) t q = change_event c t q.
Proof.
  intros Hne. unfold change_event. rewrite lookup_insert_ne by exact Hne.
  reflexivity.
Qed.

Lemma file_changed_other c p x q m :
  p <> q -> file_changed (<[p := x]> c) q m = file_changed c q m.
Proof.
  intros Hne. unfold file_changed. rewrite lookup_insert_ne by exact Hne.
  reflexivity.
Qed.

(** The events of a scan: those there were, and one for each file observed
    whose modification time is not the one cached at the start. *)
Lemma scan_events fs t l st ev :
  In ev (detections (fold_left (scan_step fs t) l st)) <->
  In ev (detections st) \/
  exists p, In p l /\ file_changed (cache st) p (mtime_of fs p) = true /\
            ev = change_event (cache st) t p.
Proof.
  revert st. induction l as [|p l IH]; intros st; simpl.
  - split; [intros H; left; exact H|]. intros [H|(q & [] & _)]. exact H.
  - rewrite IH.
    destruct (file_changed (cache st) p (mtime_of fs p)) eqn:Hp.
    + rewrite (scan_step_changed _ _ _ _ Hp). simpl. split.
      * intros [Hin|(q & Hq & Hch & ->)].
        -- apply in_app_or in Hin as [Hin|[<-|[]]]; [left; exact Hin|].
           right. exists p. split; [left; reflexivity|]. split; [exact Hp|].
           reflexivity.
        -- destruct (decide (p = q)) as [<-|Hne].
           { exfalso. unfold file_changed in Hch.
             rewrite lookup_insert_eq, Z.eqb_refl in Hch. discriminate. }
           right. exists q. rewrite file_changed_other in Hch by exact Hne.
           split; [right; exact Hq|]. split; [exact Hch|].
           apply change_event_other, Hne.
      * intros [Hin|(q & [<-|Hq] & Hch & ->)].
        -- left. apply in_or_app. left; exact Hin.
        -- left. apply in_or_app. right; left; reflexivity.
        -- destruct (decide (p = q)) as [<-|Hne].
           { left. apply in_or_app. right; left; reflexivity. }
           right. exists q. split; [exact Hq|].
           rewrite file_changed_other by exact Hne. split; [exact Hch|].
           symmetry. apply change_event_other, Hne.
    + rewrite (scan_step_unchanged _ _ _ _ Hp). split.
      * intros [Hin|(q & Hq & Hch & ->)]; [left; exact Hin|].
        right. exists q. split; [right; exact Hq|]. split; [exact Hch|].
        reflexivity.
      * intros [Hin|(q & [<-|Hq] & Hch & ->)]; [left; exact Hin| |].
        -- rewrite Hp in Hch. discriminate.
        -- right. exists q. split; [exact Hq|]. split; [exact Hch|].
           reflexivity.
Qed.

Lemma scan_step_invariant fs t st p :
  scan_invariant fs t st -> scan_invariant fs t (scan_step fs t st p).
Proof.
  intros [Hnd Hev].
  destruct (file_changed (cache st) p (mtime_of fs p)) eqn:Hp.
  - split.
    + rewrite (scan_step_changed _ _ _ _ Hp). simpl.
      apply NoDup_app. split; [exact Hnd|]. split; [|apply NoDup_singleton].
      intros ev Hin Hnew. apply list_elem_of_singleton in Hnew as ->.
      apply list_elem_of_In, Hev in Hin as (q & a & Heq & Hq).
      unfold change_event, file_change_event in Heq.
      injection Heq as <- _. apply file_changed_agrees in Hq.
      rewrite Hq in Hp. discriminate.
    + intros ev Hin.
      rewrite (scan_step_changed _ _ _ _ Hp) in Hin. simpl in Hin.
      apply in_app_or in Hin as [Hin|[<-|[]]].
      * destruct (Hev ev Hin) as (q & a & -> & Hq).
        exists q, a. split; [reflexivity|]. apply scan_step_keeps, Hq.
      * eexists p, _. split; [reflexivity|]. apply scan_step_agrees.
  - rewrite (scan_step_unchanged _ _ _ _ Hp). split; assumption.
Qed.

Lemma scan_keeps_invariant fs t l st :
  scan_invariant fs t st ->
  scan_invariant fs t (fold_left (scan_step fs t) l st).
Proof.
  revert st. induction l as [|p l IH]; intros st H; simpl.
  - exact H.
  - apply IH, scan_step_invariant, H.
Qed.

Lemma scan_invariant_start fs t c :
  scan_invariant fs t {| cache := c; detections := [] |}.
Proof. split; [constructor | intros ev []]. Qed.

(** X7. What an enabled FileDetector returns from [detect()]: one event
    for each file observed whose modification time is not the cached one,
    [created] where the file has no cache entry and [modified] where it has
    one, and nothing else; no event occurs twice, also where a file is met
    under more than one watch path. A cached file that is no longer
    observed, a deleted one, is not reported. *)
Theorem detect_reports_each_change_once (self : FileDetector) (w : World)
    (ev : DetectionEvent) :
  enabled (f_base self) = true ->
  let evs := batch (FileDetector_detect self w).1.1 in
  NoDup evs /\
  (In ev evs <->
   exists p,
     In p (observed (fs w) (watch_paths self)) /\
     file_changed (_file_cache self) p (mtime_of (fs w) p) = true /\
     ev = change_event (_file_cache self) (clock w (reads w)) p).
Proof.
  intros He evs. subst evs.
  rewrite FileDetector_detect_enabled by exact He. simpl. split.
  - apply scan_keeps_invariant, scan_invariant_start.
  - rewrite scan_events. simpl. split.
    + intros [[]|H]. exact H.
    + intros H. right; exact H.
Qed.

Lemma detect_reports_each_change_once_witness :
  In (file_change_event "d/a.txt" 111 "modified")
     (batch (FileDetector_detect demo_detector_seen demo_world_modified).1.1).
Proof.
  apply (detect_reports_each_change_once demo_detector_seen
           demo_world_modified); [reflexivity|].
  exists "d/a.txt". split; [vm_compute; left; reflexivity|].
  split; reflexivity.
Defined.

(** X8. What [detect()] on an enabled FileDetector leaves in the cache:
    the current modification time for every file observed, and for every
    other path the entry it had; so no entry is ever removed, and the
    entry of a deleted file stays as it was. *)
Theorem detect_updates_cache (self : FileDetector) (w : World) (p : string) :
  enabled (f_base self) = true ->
  let cache' := _file_cache (FileDetector_detect self w).1.2 in
  (In p (observed (fs w) (watch_paths self)) ->
   cache' !! p = Some (mtime_of (fs w) p)) /\
  (~ In p (observed (fs w) (watch_paths self)) ->
   cache' !! p = _file_cache self !! p) /\
  (is_Some (_file_cache self !! p) -> is_Some (cache' !! p)).
Proof.
  intros He cache'. subst cache'.
  rewrite FileDetector_detect_enabled by exact He. simpl.
  assert (Hin : In p (observed (fs w) (watch_paths self)) ->
    cache (fold_left (scan_step (fs w) (clock w (reads w)))
             (observed (fs w) (watch_paths self))
             {| cache := _file_cache self; detections := [] |}) !! p =
    Some (mtime_of (fs w) p)).
  { intros H. apply scan_agrees, H. }
  split; [exact Hin|]. split.
  - intros H. apply scan_other, H.
  - intros Hsome.
    destruct (decide (p ∈ observed (fs w) (watch_paths self))) as [H|H].
    + rewrite Hin by (apply list_elem_of_In, H). eexists. reflexivity.
    + rewrite scan_other by (intros H'; apply H, list_elem_of_In, H').
      exact Hsome.
Qed.

Lemma detect_updates_cache_witness :
  _file_cache (FileDetector_detect demo_detector_seen
                 demo_world_modified).1.2 !! "d/a.txt" = Some 40%Z /\
  _file_cache (FileDetector_detect demo_detector_seen
                 demo_world_modified).1.2 !! "gone.txt" = None.
Proof.
  split.
  - apply (detect_updates_cache demo_detector_seen demo_world_modified
             "d/a.txt"); [reflexivity|].
    vm_compute. left; reflexivity.
  - apply (detect_updates_cache demo_detector_seen demo_world_modified
             "gone.txt"); [reflexivity|].
    vm_compute. intros [H|[H|[]]]; discriminate.
Defined.

(** A scan in which the cache agrees on every file observed but [p]
    reports [p], once. *)
Lemma scan_one_changed fs t p l st :
  file_changed (cache st) p (mtime_of fs p) = true ->
  In p l ->
  (forall q, In q l -> q <> p -> cache_agrees fs (cache st) q) ->
  fold_left (scan_step fs t) l st =
  {| cache := <[p := mtime_of fs p]> (cache st);
     detections := detections st ++ [change_event (cache st) t p] |}.
Proof.
  revert st. induction l as [|q l IH]; intros st Hp Hin Hothers; simpl.
  - destruct Hin.
  - destruct (decide (q = p)) as [->|Hne].
    + rewrite (scan_step_changed _ _ _ _ Hp). apply scan_quiet. simpl.
      intros q Hq. unfold cache_agrees.
      destruct (decide (q = p)) as [->|Hne].
      * apply lookup_insert_eq.
      * rewrite lookup_insert_ne by (intros ->; apply Hne; reflexivity).
        apply Hothers; [right; exact Hq | exact Hne].
    + rewrite scan_step_quiet
        by (apply Hothers; [left; reflexivity | exact Hne]).
      apply IH.
      * exact Hp.
      * destruct Hin as [->|Hin]; [contradiction Hne; reflexivity | exact Hin].
      * intros q' Hq'. apply Hothers. right; exact Hq'.
Qed.

(** X9. A file the detector has in its cache is written to, so that its
    modification time is another, and nothing else changes: the next
    [detect()] returns exactly one event, a dict of four fields whose
    [type] is [file_change], whose [path] is that file and whose [action]
    is [modified], and records the new modification time. *)
Theorem one_modification_one_event (self : FileDetector) (w : World)
    (p : string) (cached : Z) :
  enabled (f_base self) = true ->
  In p (observed (fs w) (watch_paths self)) ->
  _file_cache self !! p = Some cached ->
  cached <> mtime_of (fs w) p ->
  (forall q, In q (observed (fs w) (watch_paths self)) -> q <> p ->
             cache_agrees (fs w) (_file_cache self) q) ->
  (FileDetector_detect self w).1.1 =
    Ok [file_change_event p (clock w (reads w)) "modified"] /\
  _file_cache (FileDetector_detect self w).1.2 =
    <[p := mtime_of (fs w) p]> (_file_cache self) /\
  (let ev := file_change_event p (clock w (reads w)) "modified" in
   dict_keys ev = ["type"; "path"; "timestamp"; "action"] /\
   event_type ev = Some (PStr "file_change") /\
   event_path ev = Some (PStr p) /\
   dict_get ev "action" = Some (PStr "modified") /\
   event_timestamp ev = Some (PFloat (clock w (reads w)))).
Proof.
  intros He Hin Hcached Hne Hothers.
  rewrite FileDetector_detect_enabled by exact He. simpl.
  rewrite (scan_one_changed _ _ p); [| |exact Hin|exact Hothers].
  - simpl. unfold change_event. rewrite Hcached. repeat split.
  - simpl. unfold file_changed. rewrite Hcached.
    destruct (Z.eqb_spec cached (mtime_of (fs w) p)); [contradiction|].
    reflexivity.
Qed.

Lemma one_modification_one_event_witness :
  (FileDetector_detect demo_detector_seen demo_world_modified).1.1 =
  Ok [[("type", PStr "file_change"); ("path", PStr "d/a.txt");
       ("timestamp", PFloat 111); ("action", PStr "modified")]].
Proof.
  apply (one_modification_one_event demo_detector_seen demo_world_modified
           "d/a.txt" 10).
  - reflexivity.
  - vm_compute. left; reflexivity.
  - reflexivity.
  - discriminate.
  - intros q Hq Hne. vm_compute in Hq.
    destruct Hq as [<-|[<-|[]]]; [contradiction Hne|]; reflexivity.
Defined.

(** ** The constructor of the FileDetector *)

Lemma initialize_cache_only_listed fs paths c c' :
  (forall p, is_Some (c !! p) -> In p (listed fs paths)) ->
  FileDetector_initialize_cache fs paths c = (Ok tt, c') ->
  forall p, is_Some (c' !! p) -> In p (listed fs paths).
Proof.
  rewrite initialize_cache_flat. intros Hc Hrun.
  assert (Hgen : forall l c0 c1,
    (forall q, In q l -> In q (listed fs paths)) ->
    (forall p, is_Some (c0 !! p) -> In p (listed fs paths)) ->
    for_each l (cache_mtime fs) c0 = (Ok tt, c1) ->
    forall p, is_Some (c1 !! p) -> In p (listed fs paths)).
  { clear. intros l c0 c1 Hl H0 Hrun.
    apply (for_each_invariant
             (fun c0 => forall p, is_Some (c0 !! p) -> In p (listed fs paths))
             _ _ _ _) with (3 := Hrun); [|exact H0].
    intros q s0 s1 Hq Hs0 Hb p. apply cache_mtime_ok in Hb as [_ ->].
    destruct (decide (q = p)) as [->|Hne].
    - intros _. apply Hl, Hq.
    - rewrite lookup_insert_ne by exact Hne. apply Hs0. }
  apply (Hgen _ _ _ (fun q H => H) Hc Hrun).
Qed.

(** X10. The constructor of the FileDetector returns exactly when every
    file listed under the watch paths can be examined; it raises for a
    directory entry that cannot, such as a dangling link. The detector it
    returns is enabled, has never detected, watches the paths given (the
    current directory where none or an empty list is given), and its cache
    holds the modification time of every file listed and nothing else. *)
Theorem constructor_snapshot (watch : option (list string))
    (fs0 : FileSystem) :
  let paths := match watch with
               | None | Some [] => ["."]
               | Some l => l
               end in
  (is_ok (FileDetector_init watch fs0) = true <->
   forall p, In p (listed fs0 paths) -> os_path_exists fs0 p = true) /\
  (forall d, FileDetector_init watch fs0 = Ok d ->
     f_base d = BaseDetector_init "file_detector" /\
     watch_paths d = paths /\
     forall p,
       (In p (listed fs0 paths) ->
        _file_cache d !! p = Some (mtime_of fs0 p)) /\
       (~ In p (listed fs0 paths) -> _file_cache d !! p = None)).
Proof.
  intros paths. unfold FileDetector_init. fold paths. split.
  - split.
    + destruct (FileDetector_initialize_cache fs0 paths ∅)
        as [[[]|e] c] eqn:E; [|discriminate].
      intros _ p Hp. eapply initialize_cache_agrees; [exact E | exact Hp].
    + intros Hall.
      destruct (initialize_cache_total fs0 paths ∅ Hall) as [c Hc].
      rewrite Hc. reflexivity.
  - intros d.
    destruct (FileDetector_initialize_cache fs0 paths ∅)
      as [[[]|e] c] eqn:E; [|discriminate].
    intros [= <-]. simpl. split; [reflexivity|]. split; [reflexivity|].
    intros p. split.
    + intros Hp. eapply initialize_cache_agrees; [exact E | exact Hp].
    + intros Hp. destruct (c !! p) as [m|] eqn:Hc; [|reflexivity].
      exfalso. apply Hp.
      eapply (initialize_cache_only_listed _ _ ∅); [|exact E|].
      * intros q [x Hx]. rewrite lookup_empty in Hx. discriminate.
      * rewrite Hc. eexists. reflexivity.
Qed.

Lemma constructor_snapshot_witness :
  is_ok (FileDetector_init (Some ["d"; "missing"]) demo_fs) = true.
Proof.
  apply (constructor_snapshot (Some ["d"; "missing"]) demo_fs).
  intros p Hp. vm_compute in Hp. destruct Hp as [<-|[<-|[]]]; reflexivity.
Defined.

(** X11. All the events a FileDetector or a ProcessDetector returns from
    one [detect()] bear one timestamp, the time the call leaves in
    [last_detection_time], however long the scan takes. *)
Theorem batch_bears_detection_time (d : AnyDetector) (w : World)
    (ev : DetectionEvent) :
  builtin d = true ->
  is_enabled d = true ->
  In ev (batch (detect d w).1.1) ->
  exists t,
    last_detection_time (base (detect d w).1.2) = Some t /\
    event_timestamp ev = Some (PFloat t).
Proof.
  destruct d as [f|p|c]; simpl; [| |discriminate]; intros _ He.
  - flag_of He. rewrite FileDetector_detect_enabled by exact He. simpl.
    intros Hin. exists (clock w (reads w)). split; [reflexivity|].
    destruct (scan_keeps_invariant (fs w) (clock w (reads w))
                (observed (fs w) (watch_paths f)) _
                (scan_invariant_start _ _ (_file_cache f))) as [_ Hev].
    destruct (Hev ev Hin) as (q & a & -> & _). reflexivity.
  - flag_of He. unfold ProcessDetector_detect. rewrite He. simpl.
    intros [<-|[]]. exists (clock w (reads w)). split; reflexivity.
Qed.

Lemma batch_bears_detection_time_witness :
  exists t,
    last_detection_time
      (base (detect (AFile demo_detector_seen) demo_world_modified).1.2) =
      Some t /\
    event_timestamp (file_change_event "d/a.txt" 111 "modified") =
      Some (PFloat t).
Proof.
  apply (batch_bears_detection_time (AFile demo_detector_seen)
           demo_world_modified); [reflexivity | reflexivity |].
  vm_compute. left; reflexivity.
Defined.

(** ** Cycles of the agent *)

Lemma run_single_detection_cycle a h results d w :
  Detector_run_all_detections (detector a) (world h) = (Ok results, d, w) ->
  DetectionAgent_run_single_detection (a, h) =
  (Ok results,
   (set_detector d a,
    if bool_decide (results <> [])
    then notified (_callbacks a) results
           (add_log [("INFO", "Detected " +:+ pretty (length results)
                               +:+ " events")]
              (set_world w
                 (add_log [("DEBUG", "Running single detection cycle")] h)))
    else set_world w
           (add_log [("DEBUG", "Running single detection cycle")] h))).
Proof.
  intros Hrun.
  unfold DetectionAgent_run_single_detection, bind, logger, modify,
    self_detector_run_all_detections, ret.
  cbn [world add_log]. rewrite Hrun. simpl.
  destruct (bool_decide (results <> [])).
  - rewrite notify_callbacks_notifies. reflexivity.
  - reflexivity.
Qed.

Lemma run_detectors_process ds key p w evs ds' w' :
  In (key, AProcess p) ds ->
  enabled (p_base p) = true ->
  run_detectors ds [] w = (Ok evs, ds', w') ->
  evs <> [].
Proof.
  intros Hin He Hrun.
  apply in_split in Hin as (l1 & l2 & ->).
  destruct (run_detectors_acc l1 [] w) as (r1 & ds1 & w1 & H1 & _).
  destruct (run_detectors_acc l2 [] (time_time w1).2)
    as (r2 & ds2 & w2 & H2 & _).
  assert (Hone : run_detectors ((key, AProcess p) :: l2) [] w1 =
    (Ok ([process_check_event (clock w1 (reads w1))] ++ r2),
     (key, AProcess
             {| p_base := set_last_detection_time (p_base p)
                            (clock w1 (reads w1));
                _process_cache := _process_cache p |}) :: ds2, w2)).
  { cbn [run_detectors]. unfold run_detector, is_enabled,
      BaseDetector_is_enabled. cbn [base detect].
    unfold ProcessDetector_detect. rewrite He. cbn [negb].
    destruct (run_detectors_acc l2 [process_check_event (clock w1 (reads w1))]
                (time_time w1).2) as (r & dsr & wr & Hr & Hacc).
    rewrite H2 in Hr. injection Hr as <- <- <-.
    cbn [time_time fst snd app] in Hacc |- *. rewrite Hacc. reflexivity. }
  rewrite (run_detectors_app _ _ _ _ _ _ _ _ _ H1 Hone) in Hrun.
  injection Hrun as <- _ _. intros Hnil.
  apply app_eq_nil in Hnil as [_ Hnil]. discriminate.
Qed.

(** X12. An agent whose coordinator holds an enabled ProcessDetector, as
    the agent of the default configuration does: every detection cycle
    returns a batch that is not empty, so every registered callback is
    called in every cycle, whether or not anything changed. *)
Theorem process_detector_notifies_every_cycle (a : DetectionAgent)
    (h : Host) (key : string) (p : ProcessDetector) :
  In (key, AProcess p) (detectors (detector a)) ->
  enabled (p_base p) = true ->
  exists results a' h',
    DetectionAgent_run_single_detection (a, h) = (Ok results, (a', h')) /\
    results <> [] /\
    invoked h' =
      invoked h ++ map (fun callback => (callback, results)) (_callbacks a).
Proof.
  intros Hin He.
  destruct (run_detectors_acc (detectors (detector a)) [] (world h))
    as (results & ds & w & Hrun & _).
  pose proof (run_detectors_process _ _ _ _ _ _ _ Hin He Hrun) as Hne.
  rewrite (run_single_detection_cycle _ _ _ _ _
             (run_all_detections_of _ _ _ _ _ Hrun)).
  rewrite bool_decide_eq_true_2 by exact Hne.
  eexists _, _, _. split; [reflexivity|]. split; [exact Hne|]. reflexivity.
Qed.

Lemma process_detector_notifies_every_cycle_witness :
  exists results a' h',
    DetectionAgent_run_single_detection (demo_agent, demo_host) =
      (Ok results, (a', h')) /\
    results <> [] /\
    invoked h' = [(1, results); (2, results)].
Proof.
  apply (process_detector_notifies_every_cycle demo_agent demo_host
           "process_detector" ProcessDetector_init).
  - vm_compute. right; left; reflexivity.
  - reflexivity.
Defined.

(** ** Callbacks *)

Lemma list_remove_first x l1 l2 :
  ~ In x l1 -> list_remove x (l1 ++ x :: l2) = l1 ++ l2.
Proof.
  induction l1 as [|y l1 IH]; intros Hnot; simpl.
  - rewrite decide_True by reflexivity. reflexivity.
  - rewrite decide_False
      by (intros ->; apply Hnot; left; reflexivity).
    rewrite IH by (intros H; apply Hnot; right; exact H). reflexivity.
Qed.

Lemma set_callbacks_same a : set_callbacks (_callbacks a) a = a.
Proof. destruct a; reflexivity. Qed.

(** X13. [remove_callback] takes out the first registration of the
    callback only and returns [True]: a callback registered twice is still
    registered once afterwards. On a callback that is not registered it
    returns [False] and changes nothing. Adding a callback that was not
    registered and removing it again leaves the agent as it was. *)
Theorem remove_callback_removes_first (a : DetectionAgent) (h : Host)
    (callback : nat) :
  (forall l1 l2,
     _callbacks a = l1 ++ callback :: l2 -> ~ In callback l1 ->
     DetectionAgent_remove_callback callback (a, h) =
     (Ok true, (set_callbacks (l1 ++ l2) a, h))) /\
  (~ In callback (_callbacks a) ->
   DetectionAgent_remove_callback callback (a, h) = (Ok false, (a, h)) /\
   (DetectionAgent_add_callback callback ;;;
    DetectionAgent_remove_callback callback) (a, h) = (Ok true, (a, h))).
Proof.
  split.
  - intros l1 l2 Hl Hnot. unfold DetectionAgent_remove_callback.
    rewrite bool_decide_eq_true_2.
    + rewrite Hl, list_remove_first by exact Hnot. reflexivity.
    + rewrite Hl. apply list_elem_of_In, in_or_app. right; left; reflexivity.
  - intros Hnot. split.
    + unfold DetectionAgent_remove_callback.
      rewrite bool_decide_eq_false_2; [reflexivity|].
      intros H. apply Hnot, list_elem_of_In, H.
    + unfold bind, DetectionAgent_add_callback, modify,
        DetectionAgent_remove_callback. cbn [_callbacks set_callbacks].
      rewrite bool_decide_eq_true_2
        by (apply list_elem_of_In, in_or_app; right; left; reflexivity).
      rewrite list_remove_first by exact Hnot. rewrite app_nil_r.
      destruct a; reflexivity.
Qed.

Lemma remove_callback_removes_first_witness :
  DetectionAgent_remove_callback 2 (set_callbacks [1; 2; 3; 2] demo_agent,
                                    demo_host) =
    (Ok true, (set_callbacks [1; 3; 2] demo_agent, demo_host)) /\
  DetectionAgent_remove_callback 7 (demo_agent, demo_host) =
    (Ok false, (demo_agent, demo_host)).
Proof.
  split.
  - apply (remove_callback_removes_first (set_callbacks [1; 2; 3; 2] demo_agent)
             demo_host 2 ) with (l1 := [1]) (l2 := [3; 2]).
    + reflexivity.
    + intros [H|[]]. discriminate.
  - apply (remove_callback_removes_first demo_agent demo_host 7).
    intros [H|[H|[]]]; discriminate.
Defined.

(** ** Starting again *)

(** X14. [stop()] on a running agent clears the flag and keeps the thread
    handle, the detectors, the history and the callbacks; a [start()]
    after it starts a new thread, so that [start(); stop(); start()] on an
    agent that was not running has started two threads, of which the agent
    holds the second. *)
Theorem restart_starts_a_second_thread (a : DetectionAgent) (h : Host) :
  _running a = false ->
  let thread := length (started h) in
  (exists a1 h1,
     (DetectionAgent_start ;;; DetectionAgent_stop) (a, h) =
       (Ok tt, (a1, h1)) /\
     DetectionAgent_is_running a1 = false /\
     _thread a1 = Some thread /\
     started h1 = started h ++ [thread] /\
     detector a1 = detector a /\ _callbacks a1 = _callbacks a /\
     world h1 = world h) /\
  (exists a2 h2,
     (DetectionAgent_start ;;; DetectionAgent_stop ;;; DetectionAgent_start)
       (a, h) = (Ok tt, (a2, h2)) /\
     DetectionAgent_is_running a2 = true /\
     _thread a2 = Some (Datatypes.S thread) /\
     started h2 = started h ++ [thread; Datatypes.S thread]).
Proof.
  intros Hidle thread. subst thread. split.
  - unfold DetectionAgent_start, DetectionAgent_stop, bind, gets, modify,
      logger, thread_join, ret. rewrite Hidle. simpl.
    destruct (is_alive h (length (started h)));
      (eexists _, _; split; [reflexivity|]; repeat split).
  - unfold DetectionAgent_start, DetectionAgent_stop, bind, gets, modify,
      logger, thread_join, ret. rewrite Hidle. simpl.
    destruct (is_alive h (length (started h))); simpl;
      (eexists _, _; split; [reflexivity|]; simpl;
       rewrite length_app; simpl; rewrite Nat.add_1_r, <- app_assoc;
       repeat split).
Qed.

Lemma restart_starts_a_second_thread_witness :
  exists a2 h2,
    (DetectionAgent_start ;;; DetectionAgent_stop ;;; DetectionAgent_start)
      (demo_agent, demo_host) = (Ok tt, (a2, h2)) /\
    DetectionAgent_is_running a2 = true /\
    _thread a2 = Some 1 /\
    started h2 = [0; 1].
Proof.
  apply (restart_starts_a_second_thread demo_agent demo_host). reflexivity.
Defined.

(** ** Disabling and enabling *)

Lemma enable_disable d : enable (disable d) = enable d.
Proof. destruct d as [f|p|c]; reflexivity. Qed.

(** X15. [disable()] and [enable()] change the flag and nothing else. A
    FileDetector or ProcessDetector that is disabled, asked to detect any
    number of times and enabled again is the detector it would be had it
    been enabled at once: the cache has not moved, so its next [detect()]
    reports what changed in the meantime. *)
Theorem enable_after_disable (d : AnyDetector) (ws : list World) (w : World) :
  builtin d = true ->
  let d' := enable (detect_repeatedly (disable d) ws).2 in
  d' = enable d /\
  is_enabled d' = true /\
  name (base d') = name (base d) /\
  last_detection_time (base d') = last_detection_time (base d) /\
  detect d' w = detect (enable d) w.
Proof.
  intros Hb d'.
  assert (Hsame : (detect_repeatedly (disable d) ws).2 = disable d).
  { assert (Hone : forall w0, detect (disable d) w0 = (Ok [], disable d, w0)).
    { intros w0. apply detect_disabled; destruct d; try discriminate;
        reflexivity. }
    clear -Hone. induction ws as [|w0 ws IH]; simpl.
    - reflexivity.
    - rewrite Hone.
      destruct (detect_repeatedly (disable d) ws) as [rs d1].
      simpl in *. exact IH. }
  subst d'. rewrite Hsame, enable_disable.
  split; [reflexivity|].
  destruct d as [f|p|c]; [| |discriminate]; repeat split.
Qed.

Lemma enable_after_disable_witness :
  (detect
     (enable (detect_repeatedly (disable (AFile demo_detector_seen))
                [demo_world_modified; demo_world_modified]).2)
     demo_world_modified).1.1 =
  Ok [file_change_event "d/a.txt" 111 "modified"].
Proof.
  destruct (enable_after_disable (AFile demo_detector_seen)
              [demo_world_modified; demo_world_modified]
              demo_world_modified eq_refl) as (_ & _ & _ & _ & Hdetect).
  rewrite Hdetect. vm_compute. reflexivity.
Defined.

(** ** The status *)

Lemma dict_set_fresh {V} (d : list (string * V)) k v :
  ~ In k (dict_keys d) -> dict_set d k v = d ++ [(k, v)].
Proof.
  unfold dict_keys. induction d as [|[k0 v0] d IH]; intros Hk; simpl.
  - reflexivity.
  - rewrite decide_False by (intros ->; apply Hk; left; reflexivity).
    rewrite IH by (intros H; apply Hk; right; exact H). reflexivity.
Qed.

Lemma fold_dict_set_fresh {V W} (f : V -> W) (l : list (string * V))
    (acc : list (string * W)) :
  NoDup (dict_keys acc ++ dict_keys l) ->
  fold_left (fun acc '(k, x) => dict_set acc k (f x)) l acc =
  acc ++ map (fun '(k, x) => (k, f x)) l.
Proof.
  revert acc. induction l as [|[k x] l IH]; intros acc Hnd; simpl.
  - rewrite app_nil_r. reflexivity.
  - assert (Hfresh : ~ In k (dict_keys acc)).
    { apply NoDup_app in Hnd as (_ & Hdisj & _). intros Hin.
      apply (Hdisj k); [apply list_elem_of_In, Hin|].
      unfold dict_keys. rewrite fmap_cons. left. }
    rewrite (dict_set_fresh _ _ _ Hfresh), IH.
    + rewrite <- app_assoc. reflexivity.
    + unfold dict_keys in *. rewrite fmap_app, <- app_assoc. exact Hnd.
Qed.

(** X16. [get_status()] lists every registered detector once, under its
    key and in the order of the dict, with its flag and the time of its
    last detection; and after a detection cycle it counts as many more
    detections as the cycle returned events, while the flag, the
    configuration and the number of callbacks read the same. *)
Theorem status_follows_the_cycle (a : DetectionAgent) (h : Host) :
  NoDup (dict_keys (detectors (detector a))) ->
  status_detectors (DetectionAgent_get_status a) =
    map (fun '(key, d) =>
           (key, {| status_enabled := is_enabled d;
                    status_last_detection := last_detection_time (base d) |}))
      (detectors (detector a)) /\
  exists results a' h',
    DetectionAgent_run_single_detection (a, h) = (Ok results, (a', h')) /\
    status_detection_count (DetectionAgent_get_status a') =
      status_detection_count (DetectionAgent_get_status a) + length results /\
    status_callbacks_registered (DetectionAgent_get_status a') =
      status_callbacks_registered (DetectionAgent_get_status a) /\
    status_running (DetectionAgent_get_status a') =
      status_running (DetectionAgent_get_status a) /\
    status_config (DetectionAgent_get_status a') =
      status_config (DetectionAgent_get_status a).
Proof.
  intros Hnd. split.
  - unfold DetectionAgent_get_status. simpl.
    apply (fold_dict_set_fresh
             (fun d => {| status_enabled := is_enabled d;
                          status_last_detection :=
                            last_detection_time (base d) |})
             (detectors (detector a)) []).
    exact Hnd.
  - destruct (run_detectors_acc (detectors (detector a)) [] (world h))
      as (results & ds & w & Hrun & _).
    rewrite (run_single_detection_cycle _ _ _ _ _
               (run_all_detections_of _ _ _ _ _ Hrun)).
    eexists _, _, _. split; [reflexivity|].
    unfold DetectionAgent_get_status, Detector_get_detection_history. simpl.
    rewrite length_app. repeat split.
Qed.

Lemma status_follows_the_cycle_witness :
  status_detectors (DetectionAgent_get_status demo_agent) =
  [("error_detector",
    {| status_enabled := true; status_last_detection := None |});
   ("process_detector",
    {| status_enabled := true; status_last_detection := None |})].
Proof.
  apply (status_follows_the_cycle demo_agent demo_host).
  apply (bool_decide_eq_true_1 _ (Decision0 := NoDup_dec _)). reflexivity.
Defined.

(** ** The body of the loop *)

Lemma on_agent_run_single_detection a h sleeps :
  exists results s',
    DetectionAgent_run_single_detection (a, h) = (Ok results, s') /\
    on_agent DetectionAgent_run_single_detection ((a, h), sleeps) =
    (Ok results, (s', sleeps)).
Proof.
  destruct (run_detectors_acc (detectors (detector a)) [] (world h))
    as (results & ds & w & Hrun & _).
  pose proof (run_single_detection_cycle _ _ _ _ _
                (run_all_detections_of _ _ _ _ _ Hrun)) as Hcycle.
  eexists _, _. split; [exact Hcycle|].
  unfold on_agent. rewrite Hcycle. reflexivity.
Qed.

(** X17. Where the system takes a sleep of one second, one turn of the
    background loop never raises and always runs one detection cycle.
    Where [time.sleep] takes the interval the turn then sleeps that long;
    where it raises (on a string, a list, a negative number, a number
    beyond [max_sleep_seconds], a length the system refuses), the cycle has
    run all the same, the failure is logged as an error and the turn
    sleeps one second: a loop configured so polls every second. *)
Theorem loop_body_survives (accepts : Z -> bool) (interval : ConfigValue)
    (a : DetectionAgent) (h : Host) (sleeps : list Z) :
  accepts 1%Z = true ->
  exists results a' h',
    DetectionAgent_run_single_detection (a, h) = (Ok results, (a', h')) /\
    run_loop_body accepts interval ((a, h), sleeps) =
    match time_sleep accepts interval with
    | Ok secs => (Ok tt, ((a', h'), sleeps ++ [secs]))
    | Raise e =>
        (Ok tt,
         ((a', add_log [("ERROR", "Error in detection loop: " +:+ exc_str e)]
                 h'),
          sleeps ++ [1%Z]))
    end.
Proof.
  intros Hone.
  destruct (on_agent_run_single_detection a h sleeps)
    as (results & [a' h'] & Hcycle & Hon).
  exists results, a', h'. split; [exact Hcycle|].
  unfold run_loop_body, try_except, bind. rewrite Hon.
  unfold sleep at 1.
  destruct (time_sleep accepts interval) as [secs|e]; [reflexivity|].
  unfold on_agent, logger, modify, sleep, time_sleep. simpl.
  rewrite Hone. reflexivity.
Qed.

Lemma loop_body_survives_witness :
  (run_loop_body demo_accepts (CInt (10 ^ 20))
     ((demo_agent, demo_host), [])).1 = Ok tt /\
  (run_loop_body demo_accepts (CInt (10 ^ 20))
     ((demo_agent, demo_host), [])).2.2 = [1%Z].
Proof.
  destruct (loop_body_survives demo_accepts (CInt (10 ^ 20)) demo_agent
              demo_host [] eq_refl)
    as (results & a' & h' & _ & Hbody).
  rewrite Hbody. split; reflexivity.
Defined.

Example time_sleep_runs :
  time_sleep demo_accepts (CInt 30) = Ok 30%Z /\
  exc_class_of (time_sleep demo_accepts (CInt (-1))) = Some "ValueError" /\
  exc_class_of (time_sleep demo_accepts (CInt 9223372036)) = Some "OSError" /\
  exc_class_of (time_sleep demo_accepts (CInt 9223372037)) =
    Some "OverflowError" /\
  exc_class_of (time_sleep demo_accepts (CInt (-9223372037))) =
    Some "OverflowError" /\
  exc_class_of (time_sleep demo_accepts (CStr "30")) = Some "TypeError".
Proof. repeat split. Qed.

Example loop_body_runs :
  (run_loop_body demo_accepts (CInt (-5))
     ((demo_agent, demo_host), [])).2.2 = [1%Z] /\
  (run_loop_body demo_accepts (CStr "30")
     ((demo_agent, demo_host), [])).2.2 = [1%Z] /\
  (run_loop_body demo_accepts (loop_interval demo_agent)
     ((demo_agent, demo_host), [])).2.2 = [30%Z].
Proof. vm_compute. repeat split. Qed.

(** ** The configuration *)

(** X18. [set] then [get] of a key gives the value set, whatever the
    default asked for; the other keys read as before; and a key the
    configuration does not hold reads as the default of the call. *)
Theorem config_set_then_get (self : Config) (key other : string)
    (value default : ConfigValue) :
  Config_get (Config_set self key value) key default = value /\
  (other <> key ->
   Config_get (Config_set self key value) other default =
   Config_get self other default) /\
  (~ In key (dict_keys (_config self)) -> Config_get self key default = default).
Proof.
  unfold Config_get, Config_set. simpl. split; [|split].
  - rewrite dict_get_set_eq. reflexivity.
  - intros Hne. rewrite dict_get_set_ne; [reflexivity|].
    intros Heq. apply Hne. symmetry. exact Heq.
  - intros Hk. apply dict_get_None in Hk. rewrite Hk. reflexivity.
Qed.

Lemma config_set_then_get_witness :
  Config_get (Config_set Config_init "detection_interval" (CInt 2))
    "log_level" (CStr "DEBUG") = CStr "INFO" /\
  Config_get Config_init "site" (CStr "none") = CStr "none".
Proof.
  split.
  - apply (config_set_then_get Config_init "detection_interval" "log_level"
             (CInt 2) (CStr "DEBUG")). discriminate.
  - apply (config_set_then_get Config_init "site" "log_level" (CInt 0)
             (CStr "none")).
    vm_compute. intros [H|[H|[H|[H|[H|[]]]]]]; discriminate.
Defined.

Lemma dict_get_update {V} (d other : list (string * V)) k :
  NoDup (dict_keys other) ->
  dict_get (dict_update d other) k =
  match dict_get other k with
  | Some v => Some v
  | None => dict_get d k
  end.
Proof.
  unfold dict_update, dict_keys. revert d.
  induction other as [|[k0 v0] other IH]; intros d Hnd; simpl.
  - reflexivity.
  - rewrite fmap_cons in Hnd. apply NoDup_cons in Hnd as [Hnotin Hnd].
    rewrite (IH _ Hnd).
    destruct (decide (k0 = k)) as [->|Hne].
    + assert (Hnone : dict_get other k = None).
      { apply dict_get_None. intros Hin. apply Hnotin, list_elem_of_In, Hin. }
      rewrite Hnone. apply dict_get_set_eq.
    + rewrite dict_get_set_ne by exact Hne. reflexivity.
Qed.

(** X19. [Config(config_file)] with no file name, with the empty name or
    with the name of a file that does not exist is the default
    configuration: no error is raised and the file is not read. *)
Theorem config_without_file_is_default (config_file : option string)
    (fs0 : FileSystem) (read : string -> JsonRead) :
  (forall f, config_file = Some f ->
             f = "" \/ os_path_exists fs0 f = false) ->
  Config_init_file config_file fs0 read = Ok Config_init.
Proof.
  intros Hmissing. unfold Config_init_file, Config_init.
  destruct config_file as [f|]; [|reflexivity].
  destruct (Hmissing f eq_refl) as [->|Hf].
  - reflexivity.
  - rewrite Hf, andb_false_r. reflexivity.
Qed.

Lemma config_without_file_is_default_witness :
  Config_init_file (Some "nowhere.json") demo_config_fs demo_read =
  Ok Config_init.
Proof.
  apply (config_without_file_is_default (Some "nowhere.json") demo_config_fs
           demo_read).
  intros f [= <-]. right. reflexivity.
Defined.

Lemma dict_update_pair_items d doc i :
  dict_update_items d (pair_items doc) i = (Ok tt, dict_update d doc).
Proof.
  unfold dict_update. revert d i.
  induction doc as [|[k v] doc IH]; intros d i; simpl.
  - reflexivity.
  - apply IH.
Qed.

Lemma dict_update_items_raises d items i item :
  In item items -> is_pair item = false ->
  exists e d',
    dict_update_items d items i = (Raise e, d') /\
    (exc_class e = "TypeError" \/ exc_class e = "ValueError").
Proof.
  revert d i. induction items as [|x items IH]; intros d i Hin Hbad.
  - destruct Hin.
  - destruct x as [k v|ty|n|]; simpl.
    + destruct Hin as [<-|Hin]; [discriminate|]. apply IH; assumption.
    + eexists _, _. split; [reflexivity|]. left; reflexivity.
    + eexists _, _. split; [reflexivity|]. right; reflexivity.
    + eexists _, _. split; [reflexivity|]. left; reflexivity.
Qed.

(** X20. [Config(config_file)] on a file that exists. Where the file
    holds a JSON object, every key of the file reads as the file gives it
    and every other key as by default. Where [json.load] raises a
    [JSONDecodeError] the constructor raises a [ValueError] whose text
    begins with [Invalid JSON in config file: ]; any other exception of
    [open] or of the reading, a [UnicodeDecodeError] among them, is raised
    as it is. A document that is no object is given to [dict.update] all
    the same: a number, [true], [false] or [null] raises a [TypeError]; a
    string raises a [ValueError] unless it is empty, and then the defaults
    stand; an array of pairs is merged as an object is, and an array with
    an element that is no pair raises a [TypeError] or a [ValueError]. *)
Theorem config_file_overrides_defaults (f : string) (fs0 : FileSystem)
    (read : string -> JsonRead) (key : string) (default : ConfigValue) :
  f <> "" ->
  os_path_exists fs0 f = true ->
  match read f with
  | JsonObject doc =>
      NoDup (dict_keys doc) ->
      exists c,
        Config_init_file (Some f) fs0 read = Ok c /\
        Config_get c key default =
        match dict_get doc key with
        | Some v => v
        | None => Config_get Config_init key default
        end
  | JsonArray items =>
      (forall doc,
         items = pair_items doc -> NoDup (dict_keys doc) ->
         exists c,
           Config_init_file (Some f) fs0 read = Ok c /\
           Config_get c key default =
           match dict_get doc key with
           | Some v => v
           | None => Config_get Config_init key default
           end) /\
      (forall item,
         In item items -> is_pair item = false ->
         exc_class_of (Config_init_file (Some f) fs0 read) = Some "TypeError" \/
         exc_class_of (Config_init_file (Some f) fs0 read) = Some "ValueError")
  | JsonText s =>
      if bool_decide (s = "")
      then Config_init_file (Some f) fs0 read = Ok Config_init
      else Config_init_file (Some f) fs0 read =
           Raise (mkException "ValueError"
                    "dictionary update sequence element #0 has length 1; 2 is required")
  | JsonScalar type_name =>
      Config_init_file (Some f) fs0 read =
      Raise (mkException "TypeError"
               ("'" +:+ type_name +:+ "' object is not iterable"))
  | JsonDecodeError msg =>
      Config_init_file (Some f) fs0 read =
      Raise (mkException "ValueError" ("Invalid JSON in config file: " +:+ msg))
  | ReadError e => Config_init_file (Some f) fs0 read = Raise e
  end.
Proof.
  intros Hname Hexists. unfold Config_init_file, Config_load_from_file.
  rewrite bool_decide_eq_false_2 by exact Hname. rewrite Hexists. simpl.
  destruct (read f) as [doc|items|s|ty|msg|e];
    [| | |reflexivity|reflexivity|reflexivity].
  - intros Hnd. eexists. split; [reflexivity|].
    unfold Config_get, Config_init. simpl.
    rewrite (dict_get_update _ _ _ Hnd).
    destruct (dict_get doc key); reflexivity.
  - split.
    + intros doc -> Hnd. rewrite dict_update_pair_items.
      eexists. split; [reflexivity|].
      unfold Config_get, Config_init. simpl.
      rewrite (dict_get_update _ _ _ Hnd).
      destruct (dict_get doc key); reflexivity.
    + intros item Hin Hbad.
      destruct (dict_update_items_raises DEFAULT_CONFIG items 0 item Hin Hbad)
        as (e & d' & Hrun & Hclass).
      rewrite Hrun. simpl. destruct Hclass as [-> | ->]; [left|right];
        reflexivity.
  - destruct (bool_decide (s = "")); reflexivity.
Qed.

Lemma config_file_overrides_defaults_witness :
  exists c,
    Config_init_file (Some "agent.json") demo_config_fs demo_read = Ok c /\
    Config_get c "detection_interval" (CInt 30) = CInt 5.
Proof.
  apply (config_file_overrides_defaults "agent.json" demo_config_fs demo_read
           "detection_interval" (CInt 30)).
  - discriminate.
  - reflexivity.
  - apply (bool_decide_eq_true_1 _ (Decision0 := NoDup_dec _)). reflexivity.
Defined.

Example config_file_runs :
  Config_init_file (Some "broken.json") demo_config_fs demo_read =
    Raise (mkException "ValueError"
             "Invalid JSON in config file: Expecting value: line 1 column 1 (char 0)") /\
  Config_init_file (Some "five.json") demo_config_fs demo_read =
    Raise (mkException "TypeError" "'int' object is not iterable") /\
  Config_init_file (Some "array.json") demo_config_fs demo_read =
    Raise (mkException "TypeError"
             "cannot convert dictionary update sequence element #1 to a sequence") /\
  (Config_load_from_file Config_init "array.json" demo_read).2 =
    Config_set Config_init "site" (CStr "lab").
Proof. vm_compute. repeat split. Qed.

Lemma validate_true self :
  Config_validate self = true ->
  exists interval threads level,
    dict_get (_config self) "detection_interval" = Some (CInt interval) /\
    (0 < interval)%Z /\
    dict_get (_config self) "max_threads" = Some (CInt threads) /\
    (0 < threads)%Z /\
    dict_get (_config self) "log_level" = Some (CStr level) /\
    In level valid_log_levels.
Proof.
  unfold Config_validate. intros H.
  destruct (negb (forallb _ _)); [discriminate|].
  destruct (not_positive_int (Config_get self "detection_interval" (CInt 0)))
    eqn:Hi; [discriminate|].
  destruct (not_positive_int (Config_get self "max_threads" (CInt 0)))
    eqn:Ht; [discriminate|].
  destruct (not_a_log_level (Config_get self "log_level" (CInt 0)))
    eqn:Hl; [discriminate|].
  clear H. unfold Config_get in Hi, Ht, Hl.
  destruct (dict_get (_config self) "detection_interval") as [[i| |]|];
    try discriminate.
  destruct (dict_get (_config self) "max_threads") as [[t| |]|];
    try discriminate.
  destruct (dict_get (_config self) "log_level") as [[|l|]|];
    try discriminate.
  simpl in Hi, Ht, Hl.
  exists i, t, l.
  split; [reflexivity|]. split; [apply Z.leb_gt, Hi|].
  split; [reflexivity|]. split; [apply Z.leb_gt, Ht|]. split; [reflexivity|].
  apply negb_false_iff, bool_decide_eq_true_1 in Hl.
  apply list_elem_of_In, Hl.
Qed.

(** X21. The default configuration passes [validate()]. A configuration
    [validate()] accepts has a log level the constructor of the agent
    finds in [logging], and an interval that is a positive whole number;
    but [validate()] puts no upper bound on it: [time.sleep] takes the
    interval exactly when it is at most [max_sleep_seconds] and the system
    takes a sleep of that length, and raises an [OverflowError] on a
    larger one, never a [ValueError] or a [TypeError]. *)
Theorem validated_config_serves (accepts : Z -> bool) (a : DetectionAgent) :
  Config_validate Config_init = true /\
  (Config_validate (config a) = true ->
   exists interval,
     (0 < interval)%Z /\
     loop_interval a = CInt interval /\
     is_ok (logging_getattr
              (Config_get (config a) "log_level" (CStr "INFO"))) = true /\
     (time_sleep accepts (loop_interval a) = Ok interval <->
      (interval <= max_sleep_seconds)%Z /\ accepts interval = true) /\
     ((max_sleep_seconds < interval)%Z ->
      exc_class_of (time_sleep accepts (loop_interval a)) =
      Some "OverflowError") /\
     ((interval <= max_sleep_seconds)%Z -> accepts interval = false ->
      exc_class_of (time_sleep accepts (loop_interval a)) = Some "OSError")).
Proof.
  split; [reflexivity|]. intros Hv.
  destruct (validate_true _ Hv)
    as (i & n & l & Hi & Hpos & _ & _ & Hl & Hin).
  exists i. unfold loop_interval, Config_get. rewrite Hi, Hl.
  split; [exact Hpos|]. split; [reflexivity|]. split.
  { unfold logging_getattr.
    rewrite bool_decide_eq_true_2; [reflexivity|].
    simpl in Hin. apply list_elem_of_In. simpl.
    destruct Hin as [<-|[<-|[<-|[<-|[<-|[]]]]]]; auto 10. }
  assert (Hlow : (i <? - max_sleep_seconds)%Z = false)
    by (apply Z.ltb_ge; unfold max_sleep_seconds; lia).
  assert (Hneg : (i <? 0)%Z = false) by (apply Z.ltb_ge; lia).
  unfold time_sleep. rewrite Hlow. simpl.
  destruct (Z.ltb_spec max_sleep_seconds i) as [Hbig|Hfits].
  - split; [|split].
    + split; [intros H; discriminate H | intros [Hle _]; lia].
    + intros _. reflexivity.
    + intros Hle. lia.
  - rewrite Hneg. destruct (accepts i) eqn:Hacc.
    + split; [|split].
      * split; [intros _; split; [exact Hfits | reflexivity] | reflexivity].
      * intros Hgt. lia.
      * intros _ H. discriminate H.
    + split; [|split].
      * split; [intros H; discriminate H | intros [_ H]; discriminate H].
      * intros Hgt. lia.
      * intros _ _. reflexivity.
Qed.

Lemma validated_config_serves_witness :
  exists interval,
    (0 < interval)%Z /\
    time_sleep demo_accepts (loop_interval demo_agent) = Ok interval.
Proof.
  destruct (validated_config_serves demo_accepts demo_agent) as [_ H].
  destruct (H eq_refl) as (interval & Hpos & Hint & _ & Hsleep & _).
  exists interval. split; [exact Hpos|].
  apply Hsleep. injection Hint as <-. split; [discriminate | reflexivity].
Defined.

(** X22. [validate()] looks at three keys only. Whatever is set under any
    other key, [enabled_detectors] among them, the answer stays the same;
    and a configuration it accepts whose [enabled_detectors] is a number
    makes the constructor of the agent raise a [TypeError]. *)
Theorem validate_ignores_other_keys (self : Config) (key : string)
    (value : ConfigValue) (n : Z) (h : Host) :
  (key <> "detection_interval" -> key <> "max_threads" ->
   key <> "log_level" ->
   Config_validate (Config_set self key value) = Config_validate self) /\
  (Config_validate self = true ->
   let bad := Config_set self "enabled_detectors" (CInt n) in
   Config_validate bad = true /\
   exists e h',
     DetectionAgent_init (Some bad) h = (Raise e, h') /\
     exc_class e = "TypeError").
Proof.
  assert (Hother : forall k v,
    k <> "detection_interval" -> k <> "max_threads" -> k <> "log_level" ->
    Config_validate (Config_set self k v) = Config_validate self).
  { intros k v H1 H2 H3. unfold Config_validate, Config_get, Config_set.
    simpl. rewrite !dict_get_set_ne by assumption. reflexivity. }
  split; [apply Hother|].
  intros Hv bad. subst bad. split.
  - rewrite Hother by discriminate. exact Hv.
  - destruct (validate_true _ Hv) as (i & t & l & _ & _ & _ & _ & Hl & Hin).
    unfold DetectionAgent_init, Config_get, Config_set. simpl.
    rewrite dict_get_set_ne by discriminate. rewrite Hl.
    unfold logging_getattr.
    rewrite bool_decide_eq_true_2.
    + unfold DetectionAgent_initialize_detectors, bind, gets, lift,
        Config_get. simpl. rewrite dict_get_set_eq. simpl.
      eexists _, _. split; reflexivity.
    + apply list_elem_of_In. simpl in Hin |- *.
      destruct Hin as [<-|[<-|[<-|[<-|[<-|[]]]]]]; auto 10.
Qed.

Lemma validate_ignores_other_keys_witness :
  Config_validate (Config_set Config_init "enabled_detectors" (CInt 3)) = true /\
  is_ok (DetectionAgent_init
           (Some (Config_set Config_init "enabled_detectors" (CInt 3)))
           demo_host).1 = false.
Proof.
  destruct (validate_ignores_other_keys Config_init "output_format" (CInt 0)
              3 demo_host) as [_ H].
  destruct (H eq_refl) as (Hv & e & h' & Hinit & _).
  split; [exact Hv|]. rewrite Hinit. reflexivity.
Defined.
